(** * bullet_train-mcp: the auth providers and the OAuth relay endpoints

    A shallow embedding of

    - [src/request-context.ts]: the per-request context and its
      [AsyncLocalStorage] instance,
    - [src/auth-provider.ts]: [isAuthError], [StaticAuthProvider] and
      [BearerTokenAuthProvider],
    - the server script: the handlers of [GET /oauth/authorize] and
      [POST /oauth/token], the discovery documents and the index, and the
      request listener that chooses between Express and the MCP handler,

    followed by the properties the specification states about them.

    JavaScript strings are modelled as [string], read as the UTF-8 bytes of
    the text; HTTP status codes as [Z]; JavaScript objects used as maps
    ([req.query], [req.body], header records) as [gmap string _].
    [console.error] only writes to the process' stderr and is left out. *)

From Stdlib Require Import ZArith String Ascii List Lia.
From stdpp Require Import base option strings gmap.
Import ListNotations.
Local Open Scope string_scope.
Local Open Scope Z_scope.
Set Warnings "-register-all".

(** ** JavaScript values as the handlers observe them *)

Module Js.

(** A field of [req.query] or [req.body].  The handlers only test such a
    field for truthiness, compare it with [===] against a string literal
    and convert it to a string.  A field is therefore either a string or
    some other value (an array or nested object from the query-string
    parser; a number, boolean, [null], array or object from a JSON
    body), kept as what [ToBoolean] and [ToString] make of it.  A missing
    field ([undefined]) is [None] of [option Value]. *)
Inductive Value :=
| Str (s : string)
| Other (toBoolean : bool) (toString : string).

(** [ToBoolean]: [undefined] and the empty string are falsy. *)
Definition truthy (v : option Value) : bool :=
  match v with
  | None => false
  | Some (Str s) => negb (String.eqb s "")
  | Some (Other b _) => b
  end.

(** [ToString]; on [undefined] it is the string "undefined". *)
Definition toString (v : option Value) : string :=
  match v with
  | None => "undefined"
  | Some (Str s) => s
  | Some (Other _ s) => s
  end.

(** [v === lit] for a string literal [lit]. *)
Definition strict_eq_string (v : option Value) (lit : string) : bool :=
  match v with
  | Some (Str s) => String.eqb s lit
  | _ => false
  end.

(** Truthiness of a value of TypeScript type [string | undefined]. *)
Definition truthy_string (v : option string) : bool :=
  match v with
  | None => false
  | Some s => negb (String.eqb s "")
  end.

(** A value of type [string | undefined] inside a template literal. *)
Definition template (v : option string) : string :=
  match v with
  | None => "undefined"
  | Some s => s
  end.

(** JSON values: the objects the handlers hand to [res.json], and the
    [data] axios has parsed from a response body.  A number is a JavaScript
    number, named by the text [JSON.stringify] prints for it. *)
Inductive Json :=
| JNull
| JBool (b : bool)
| JNumber (printed : string)
| JString (s : string)
| JArray (items : list Json)
| JObject (fields : list (string * Json)).

End Js.

(** ** HTTP exchanged with the downstream server, and axios' view of it *)

Record HttpRequest := {
  method : string;
  url : string;
  headers : gmap string string;
  body : string
}.

(** [AxiosResponse]: the fields the code reads.  [data] is the value axios
    made of the response body (for a JSON body, what [JSON.parse] returns),
    not the bytes that came over the wire. *)
Record AxiosResponse := {
  status : Z;
  data : Js.Json
}.

(** [AxiosError]: [response] is absent when no response was received. *)
Record AxiosError := {
  response : option AxiosResponse
}.

(** What can be thrown in the code under study. *)
Inductive JsError :=
| Error (message : string)
| TypeError (message : string)
| URIError (message : string)
| Axios (error : AxiosError).

(** What becomes of one [axios.post] invocation on the network.  axios is
    a library outside the repository.  Of its behaviour the model fixes
    this much: either nothing is sent, or the request it was configured
    with goes out first; every redirect it follows puts a further request
    on the wire; and the promise settles on the last response, if one
    arrives.  Which redirects are followed, and how many, is axios' own
    business and comes with the runtime. *)
Inductive AxiosExchange :=
| not_sent
| sent (followed : list HttpRequest) (final : option AxiosResponse).

(** ** [src/request-context.ts] *)

(** [interface RequestContext { bearerToken?: string }] *)
Record RequestContext := {
  bearerToken : option string
}.

(** A parsed [URL] object: everything before the query, the list behind
    [searchParams], and the fragment (with its [#], or empty). *)
Record URL := {
  before_query : string;
  searchParams : list (string * string);
  hash : string
}.

(** ** The runtime the code runs in

    What the code reads from its surroundings and cannot compute itself:
    the process environment, the store [requestContext.getStore()] returns
    in the current asynchronous extent ([None] when called outside any
    [requestContext.run]), the platform's URL parser ([None] when
    [new URL(s)] throws), and what happens on the network when axios is
    asked to send a request downstream. *)
Record Runtime := {
  process_env : gmap string string;
  requestContext_store : option RequestContext;
  URL_parse : string -> option URL;
  downstream : HttpRequest -> AxiosExchange
}.

(** ** Asynchronous computations

    An [async] function reads the runtime, appends the requests that go
    out to the downstream server to a log, and settles: fulfilled with a
    value or rejected with an error.  The code under study reaches the
    network through [axios.post] only. *)

Inductive Outcome (A : Type) :=
| Fulfilled (a : A)
| Rejected (e : JsError).
Arguments Fulfilled {A} a.
Arguments Rejected {A} e.

Definition Async (A : Type) : Type :=
  Runtime -> list HttpRequest -> Outcome A * list HttpRequest.

#[global] Instance Async_ret : MRet Async :=
  fun A a _ log => (Fulfilled a, log).

#[global] Instance Async_bind : MBind Async :=
  fun A B k m rt log =>
    match m rt log with
    | (Fulfilled a, log') => k a rt log'
    | (Rejected e, log') => (Rejected e, log')
    end.

Definition throw {A} (e : JsError) : Async A :=
  fun _ log => (Rejected e, log).

(** [try { m } catch (error) { handler error }] *)
Definition try_catch {A} (m : Async A) (handler : JsError -> Async A) : Async A :=
  fun rt log =>
    match m rt log with
    | (Fulfilled a, log') => (Fulfilled a, log')
    | (Rejected e, log') => handler e rt log'
    end.

Definition runtime : Async Runtime :=
  fun rt log => (Fulfilled rt, log).

(** [requestContext.getStore()] *)
Definition getStore : Async (option RequestContext) :=
  rt ← runtime; mret (requestContext_store rt).

(** [new URL(s)] *)
Definition new_URL (s : string) : Async URL :=
  rt ← runtime;
  match URL_parse rt s with
  | Some u => mret u
  | None => throw (TypeError "Invalid URL")
  end.

(** axios' default [validateStatus]. *)
Definition validateStatus (s : Z) : bool := (200 <=? s) && (s <? 300).

(** [axios.post(url, data, { headers, transformRequest })], [payload]
    being what [transformRequest] made of [data].  The requests that went
    out are logged; the promise is fulfilled with the final response when
    its status passes [validateStatus], rejected with an [AxiosError]
    carrying the response when it does not, and rejected with an
    [AxiosError] without response when there is none. *)
Definition axios_post (target : string) (payload : string)
    (hdrs : gmap string string) : Async AxiosResponse :=
  fun rt log =>
    let req := {| method := "POST"; url := target;
                  headers := hdrs; body := payload |} in
    match downstream rt req with
    | not_sent => (Rejected (Axios {| response := None |}), log)
    | sent followed final =>
        let log' := (log ++ req :: followed)%list in
        match final with
        | Some r =>
            if validateStatus (status r)
            then (Fulfilled r, log')
            else (Rejected (Axios {| response := Some r |}), log')
        | None => (Rejected (Axios {| response := None |}), log')
        end
    end.

(** ** [src/auth-provider.ts] *)

(** [error.response?.status === 401 || error.response?.status === 403] *)
Definition isAuthError (error : AxiosError) : bool :=
  match response error with
  | Some r => (status r =? 401) || (status r =? 403)
  | None => false
  end.

Class AuthProvider (P : Type) := {
  getAuthHeaders : P -> Async (gmap string string);
  handleAuthError : P -> AxiosError -> Async bool
}.

Module StaticAuthProvider.

(** [constructor(private headers: Record<string, string> = {})] *)
Record t := new { this_headers : gmap string string }.

Definition default : t := new ∅.

(** [return { ...this.headers }] *)
Definition getAuthHeaders (this : t) : Async (gmap string string) :=
  mret (this_headers this).

Definition handleAuthError (this : t) (_error : AxiosError) : Async bool :=
  mret false.

End StaticAuthProvider.

Module BearerTokenAuthProvider.

Record t := new { }.

Definition no_token_message : string :=
  "No bearer token found in request context. Ensure the client sends Authorization: Bearer <token> header.".

Definition getAuthHeaders (this : t) : Async (gmap string string) :=
  context ← getStore;
  let token := context ≫= bearerToken in
  if negb (Js.truthy_string token)
  then throw (Error no_token_message)
  else mret {[ "Authorization" := "Bearer " +:+ Js.template token ]}.

Definition handleAuthError (this : t) (_error : AxiosError) : Async bool :=
  mret false.

End BearerTokenAuthProvider.

#[global] Instance StaticAuthProvider_AuthProvider : AuthProvider StaticAuthProvider.t := {
  getAuthHeaders := StaticAuthProvider.getAuthHeaders;
  handleAuthError := StaticAuthProvider.handleAuthError
}.

#[global] Instance BearerTokenAuthProvider_AuthProvider : AuthProvider BearerTokenAuthProvider.t := {
  getAuthHeaders := BearerTokenAuthProvider.getAuthHeaders;
  handleAuthError := BearerTokenAuthProvider.handleAuthError
}.

(** ** Percent-encoding *)

Module Encoding.

Definition hex_digit (n : N) : ascii :=
  ascii_of_N (if (n <? 10)%N then 48 + n else 55 + n)%N.

(** [%XX] with upper-case hexadecimal digits. *)
Definition percent_encode_byte (c : ascii) : string :=
  let n := N_of_ascii c in
  String "%" (String (hex_digit (n / 16)%N) (String (hex_digit (n mod 16)%N) "")).

Definition is_alphanumeric (c : ascii) : bool :=
  let n := N_of_ascii c in
  ((48 <=? n) && (n <=? 57) || (65 <=? n) && (n <=? 90)
   || (97 <=? n) && (n <=? 122))%N.

Fixpoint mem_ascii (c : ascii) (s : string) : bool :=
  match s with
  | EmptyString => false
  | String d s' => Ascii.eqb c d || mem_ascii c s'
  end.

(** [encodeURIComponent] escapes every byte except letters, digits and
    [- _ . ! ~ * ' ( )]. *)
Definition uri_unreserved (c : ascii) : bool :=
  is_alphanumeric c || mem_ascii c "-_.!~*'()".

Fixpoint encodeURIComponent (s : string) : string :=
  match s with
  | EmptyString => EmptyString
  | String c s' =>
      (if uri_unreserved c then String c "" else percent_encode_byte c)
      +:+ encodeURIComponent s'
  end.

(** The application/x-www-form-urlencoded serializer behind
    [URLSearchParams]: a space becomes [+]; letters, digits and
    [* - . _] stay; every other byte is escaped. *)
Fixpoint urlencoded_serialize_bytes (s : string) : string :=
  match s with
  | EmptyString => EmptyString
  | String c s' =>
      (if Ascii.eqb c " " then "+"
       else if is_alphanumeric c || mem_ascii c "*-._" then String c ""
       else percent_encode_byte c)
      +:+ urlencoded_serialize_bytes s'
  end.

(** [parts.join(sep)] *)
Fixpoint join (sep : string) (parts : list string) : string :=
  match parts with
  | [] => ""
  | [p] => p
  | p :: rest => p +:+ sep +:+ join sep rest
  end.

End Encoding.

(** ** [URLSearchParams] and [URL.toString] *)

(** [searchParams.set(name, value)]: the first pair named [name] takes the
    value and the later ones are removed; without such a pair, one is
    appended. *)
Fixpoint URLSearchParams_set (name value : string)
    (params : list (string * string)) : list (string * string) :=
  match params with
  | [] => [(name, value)]
  | (k, v) :: rest =>
      if String.eqb k name
      then (name, value) :: List.filter (fun kv => negb (String.eqb (fst kv) name)) rest
      else (k, v) :: URLSearchParams_set name value rest
  end.

(** [searchParams.getAll(name)] *)
Definition URLSearchParams_getAll (name : string)
    (params : list (string * string)) : list string :=
  map snd (List.filter (fun kv => String.eqb (fst kv) name) params).

Definition URLSearchParams_toString (params : list (string * string)) : string :=
  Encoding.join "&"
    (map (fun kv => Encoding.urlencoded_serialize_bytes (fst kv) +:+ "="
                    +:+ Encoding.urlencoded_serialize_bytes (snd kv)) params).

Definition URL_set (name value : string) (u : URL) : URL :=
  {| before_query := before_query u;
     searchParams := URLSearchParams_set name value (searchParams u);
     hash := hash u |}.

Definition URL_toString (u : URL) : string :=
  before_query u
  +:+ match searchParams u with
      | [] => ""
      | _ => "?" +:+ URLSearchParams_toString (searchParams u)
      end
  +:+ hash u.

(** ** The server script *)

Module Express.

(** A field of a parsed body.  Besides the values of [Js.Value], a JSON
    body can hold values that have no text: a string with a lone
    surrogate, on which [encodeURIComponent] throws a [URIError], and an
    object whose [toString] is not callable (or an array of such), whose
    conversion to a string throws a [TypeError].  Both are truthy, and
    differ from every string literal.  The query-string parsers produce
    neither. *)
Inductive Field :=
| value (v : Js.Value)
| lone_surrogate
| no_toString.

(** [req.query] and [req.body], as the parsers in front of the handlers
    leave them.  [req.query] is always an object from parameter names to
    values.  [req.body] is an object from names to fields when a body
    parser has filled it in; Express 4 puts an empty object there
    otherwise, Express 5 leaves it [undefined] ([None]). *)
Record Request := {
  query : gmap string Js.Value;
  raw_body : option (gmap string Field)
}.

Definition field_value (f : Field) : option Js.Value :=
  match f with
  | value v => Some v
  | _ => None
  end.

(** The fields of [req.body] that are values of [Js.Value]; none when
    [req.body] is [undefined]. *)
Definition body (req : Request) : gmap string Js.Value :=
  match raw_body req with
  | Some fields => omap field_value fields
  | None => ∅
  end.

(** [ToBoolean] of a field. *)
Definition truthy (f : option Field) : bool :=
  match f with
  | None => false
  | Some (value v) => Js.truthy (Some v)
  | Some _ => true
  end.

(** [f === lit] for a string literal [lit]. *)
Definition strict_eq_string (f : option Field) (lit : string) : bool :=
  match f with
  | Some (value v) => Js.strict_eq_string (Some v) lit
  | _ => false
  end.

(** The field as [encodeURIComponent(data[key] || '')] can read it, or the
    error that conversion throws. *)
Definition printable (f : option Field) : Outcome (option Js.Value) :=
  match f with
  | None => Fulfilled None
  | Some (value v) => Fulfilled (Some v)
  | Some lone_surrogate => Rejected (URIError "URI malformed")
  | Some no_toString =>
      Rejected (TypeError "Cannot convert object to primitive value")
  end.

Definition converts (f : option Field) : bool :=
  match printable f with
  | Fulfilled _ => true
  | Rejected _ => false
  end.

(** What a handler sends: [res.status(s).json(b)] (and [res.json(b)],
    whose status is 200), or [res.redirect(location)], a 302 with that
    [Location]. *)
Inductive Response :=
| json (status : Z) (body : Js.Json)
| redirect (location : string).

End Express.

(** [process.env.BULLET_TRAIN_BASE_URL || 'http://localhost:3000'] *)
Definition BULLET_TRAIN_BASE_URL (rt : Runtime) : string :=
  let configured := process_env rt !! "BULLET_TRAIN_BASE_URL" in
  if Js.truthy_string configured then Js.template configured
  else "http://localhost:3000".

Definition error_body (error error_description : string) : Js.Json :=
  Js.JObject [("error", Js.JString error);
              ("error_description", Js.JString error_description)].

(** [app.get('/oauth/authorize', async (req, res) => ...)] *)
Definition oauth_authorize (req : Express.Request) : Async Express.Response :=
  try_catch
    (let client_id := Express.query req !! "client_id" in
     let redirect_uri := Express.query req !! "redirect_uri" in
     let state := Express.query req !! "state" in
     let response_type := Express.query req !! "response_type" in
     if negb (Js.truthy client_id) || negb (Js.truthy redirect_uri)
        || negb (Js.truthy state)
     then
       mret (Express.json 400
               (error_body "invalid_request"
                  "Missing required parameters: client_id, redirect_uri, or state"))
     else
       rt ← runtime;
       bulletTrainAuthUrl ← new_URL (BULLET_TRAIN_BASE_URL rt +:+ "/oauth/authorize");
       let bulletTrainAuthUrl :=
         URL_set "client_id" (Js.toString client_id) bulletTrainAuthUrl in
       let bulletTrainAuthUrl :=
         URL_set "redirect_uri" (Js.toString redirect_uri) bulletTrainAuthUrl in
       let bulletTrainAuthUrl :=
         URL_set "state" (Js.toString state) bulletTrainAuthUrl in
       let bulletTrainAuthUrl :=
         URL_set "response_type"
           (if Js.truthy response_type then Js.toString response_type else "code")
           bulletTrainAuthUrl in
       mret (Express.redirect (URL_toString bulletTrainAuthUrl)))
    (fun error =>
       mret (Express.json 500
               (error_body "server_error"
                  "Internal server error during authorization"))).

(** The text the [transformRequest] of the token call builds,
    [Object.keys(data).map(key =>
       `${encodeURIComponent(key)}=${encodeURIComponent(data[key] || '')}`).join('&')],
    from [data] whose values all have a text; [data] is given with its keys
    in insertion order. *)
Definition transformRequest (data : list (string * option Js.Value)) : string :=
  Encoding.join "&"
    (map (fun entry =>
            Encoding.encodeURIComponent (fst entry) +:+ "="
            +:+ Encoding.encodeURIComponent
                  (if Js.truthy (snd entry) then Js.toString (snd entry) else ""))
         data).

(** The values of [data] as [transformRequest] reads them, key by key in
    order, up to the first one whose conversion throws. *)
Fixpoint printable_data (data : list (string * option Express.Field))
    : Outcome (list (string * option Js.Value)) :=
  match data with
  | [] => Fulfilled []
  | (key, f) :: rest =>
      match Express.printable f with
      | Rejected e => Rejected e
      | Fulfilled v =>
          match printable_data rest with
          | Rejected e => Rejected e
          | Fulfilled values => Fulfilled ((key, v) :: values)
          end
      end
  end.

(** The [transformRequest] of the token call, run by axios before anything
    is sent: the text of [transformRequest], or the error thrown at the
    first field that has no text. *)
Definition transformRequest_fields
    (data : list (string * option Express.Field)) : Async string :=
  match printable_data data with
  | Fulfilled values => mret (transformRequest values)
  | Rejected e => throw e
  end.

(** [app.post('/oauth/token', async (req, res) => ...)] *)
Definition oauth_token (req : Express.Request) : Async Express.Response :=
  try_catch
    (fields ←
       match Express.raw_body req with
       | Some fields => mret (fields : gmap string Express.Field)
       | None =>
           throw (TypeError
                    "Cannot destructure property 'grant_type' of 'req.body' as it is undefined.")
       end;
     let grant_type := fields !! "grant_type" in
     let code := fields !! "code" in
     let redirect_uri := fields !! "redirect_uri" in
     let client_id := fields !! "client_id" in
     let client_secret := fields !! "client_secret" in
     if negb (Express.truthy client_id) || negb (Express.truthy client_secret)
     then
       mret (Express.json 400
               (error_body "invalid_request" "Missing client_id or client_secret"))
     else if Express.strict_eq_string grant_type "authorization_code"
             && negb (Express.truthy code)
     then
       mret (Express.json 400
               (error_body "invalid_request" "Missing authorization code"))
     else
       rt ← runtime;
       payload ←
         transformRequest_fields
           [("grant_type", grant_type); ("code", code);
            ("redirect_uri", redirect_uri); ("client_id", client_id);
            ("client_secret", client_secret)];
       tokenResponse ←
         axios_post (BULLET_TRAIN_BASE_URL rt +:+ "/oauth/token") payload
           {[ "Content-Type" := "application/x-www-form-urlencoded" ]};
       mret (Express.json 200 (data tokenResponse)))
    (fun error =>
       match error with
       | Axios {| response := Some r |} =>
           mret (Express.json (status r) (data r))
       | _ =>
           mret (Express.json 500
                   (error_body "server_error"
                      "Internal server error during token exchange"))
       end).

(** ** Sample requests and runtimes *)

(** A process without environment variables whose URL parser accepts its
    input as it is, with a given context store, and a network on which
    every request is sent, no redirect is followed and the given answer
    comes back. *)
Definition plain_runtime (store : option RequestContext)
    (answer : option AxiosResponse) : Runtime :=
  {| process_env := ∅;
     requestContext_store := store;
     URL_parse := fun s =>
       Some {| before_query := s; searchParams := []; hash := "" |};
     downstream := fun _ => sent [] answer |}.

Definition query_request (fields : list (string * Js.Value)) : Express.Request :=
  {| Express.query := list_to_map fields; Express.raw_body := None |}.

Definition body_request (fields : list (string * Js.Value)) : Express.Request :=
  {| Express.query := ∅;
     Express.raw_body := Some (Express.value <$> list_to_map fields) |}.

(** A POST whose body no parser has filled in. *)
Definition no_body_request : Express.Request :=
  {| Express.query := ∅; Express.raw_body := None |}.

(** The 500 of the token handler. *)
Definition server_error_token : Express.Response :=
  Express.json 500
    (error_body "server_error" "Internal server error during token exchange").

(** The token request of the relay round trip. *)
Definition authorization_code_request : Express.Request :=
  body_request
    [("grant_type", Js.Str "authorization_code"); ("code", Js.Str "abc");
     ("redirect_uri", Js.Str "https://x"); ("client_id", Js.Str "id");
     ("client_secret", Js.Str "sec")].

(** What the relay sends downstream for [authorization_code_request]. *)
Definition authorization_code_forwarded (rt : Runtime) : HttpRequest :=
  {| method := "POST";
     url := BULLET_TRAIN_BASE_URL rt +:+ "/oauth/token";
     headers := {[ "Content-Type" := "application/x-www-form-urlencoded" ]};
     body := "grant_type=authorization_code&code=abc&redirect_uri=https%3A%2F%2Fx&client_id=id&client_secret=sec" |}.

Definition invalid_grant : AxiosResponse :=
  {| status := 400; data := Js.JObject [("error", Js.JString "invalid_grant")] |}.

Definition created_token : AxiosResponse :=
  {| status := 201; data := Js.JObject [("access_token", Js.JString "tok")] |}.

Definition invalid_request_authorize : Express.Response :=
  Express.json 400
    (error_body "invalid_request"
       "Missing required parameters: client_id, redirect_uri, or state").

(** ** More of the server script *)

(** The call of the token handler, for a request whose five fields have a
    text: the arguments of its [axios.post], the body being what
    [transformRequest] makes of the fields. *)
Definition token_call (req : Express.Request) (rt : Runtime) : HttpRequest :=
  {| method := "POST";
     url := BULLET_TRAIN_BASE_URL rt +:+ "/oauth/token";
     headers := {[ "Content-Type" := "application/x-www-form-urlencoded" ]};
     body :=
       transformRequest
         [("grant_type", Express.body req !! "grant_type");
          ("code", Express.body req !! "code");
          ("redirect_uri", Express.body req !! "redirect_uri");
          ("client_id", Express.body req !! "client_id");
          ("client_secret", Express.body req !! "client_secret")] |}.

(** [process.env.PUBLIC_URL || `http://localhost:${SERVER_PORT}`].
    [SERVER_PORT] is the text the template makes of the number
    [parseInt(process.env.SERVER_PORT || '3001', 10)]; number parsing and
    printing are the platform's and the text is taken as given. *)
Definition PUBLIC_URL (SERVER_PORT : string) (rt : Runtime) : string :=
  let configured := process_env rt !! "PUBLIC_URL" in
  if Js.truthy_string configured then Js.template configured
  else "http://localhost:" +:+ SERVER_PORT.

(** [app.get('/.well-known/oauth-protected-resource', ...)] *)
Definition oauth_protected_resource (SERVER_PORT : string) : Async Express.Response :=
  rt ← runtime;
  mret (Express.json 200
          (Js.JObject
             [("resource", Js.JString (PUBLIC_URL SERVER_PORT rt));
              ("authorization_servers",
               Js.JArray [Js.JString (PUBLIC_URL SERVER_PORT rt)]);
              ("bearer_methods_supported", Js.JArray [Js.JString "header"])])).

(** [app.get('/.well-known/oauth-authorization-server', ...)] *)
Definition oauth_authorization_server (SERVER_PORT : string) : Async Express.Response :=
  rt ← runtime;
  mret (Express.json 200
          (Js.JObject
             [("issuer", Js.JString (PUBLIC_URL SERVER_PORT rt));
              ("authorization_endpoint",
               Js.JString (PUBLIC_URL SERVER_PORT rt +:+ "/oauth/authorize"));
              ("token_endpoint",
               Js.JString (PUBLIC_URL SERVER_PORT rt +:+ "/oauth/token"));
              ("grant_types_supported",
               Js.JArray [Js.JString "authorization_code";
                          Js.JString "client_credentials"]);
              ("response_types_supported", Js.JArray [Js.JString "code"]);
              ("token_endpoint_auth_methods_supported",
               Js.JArray [Js.JString "client_secret_post";
                          Js.JString "client_secret_basic"])])).

(** [app.get('/', ...)] *)
Definition root (SERVER_PORT : string) : Async Express.Response :=
  rt ← runtime;
  mret (Express.json 200
          (Js.JObject
             [("name", Js.JString "Bullet Train MCP Server");
              ("version", Js.JString "1.0.0");
              ("description",
               Js.JString "Multi-tenant MCP server for Bullet Train API");
              ("endpoints",
               Js.JObject
                 [("mcp", Js.JString (PUBLIC_URL SERVER_PORT rt +:+ "/mcp"));
                  ("oauth",
                   Js.JObject
                     [("authorize",
                       Js.JString (PUBLIC_URL SERVER_PORT rt +:+ "/oauth/authorize"));
                      ("token",
                       Js.JString (PUBLIC_URL SERVER_PORT rt +:+ "/oauth/token"));
                      ("discovery",
                       Js.JString
                         (PUBLIC_URL SERVER_PORT rt
                          +:+ "/.well-known/oauth-authorization-server"))]);
                  ("status", Js.JString (PUBLIC_URL SERVER_PORT rt +:+ "/status"))])])).

(** [s.startsWith(prefix)] *)
Fixpoint startsWith (s prefix : string) : bool :=
  match prefix, s with
  | EmptyString, _ => true
  | String _ _, EmptyString => false
  | String p prefix', String c s' => Ascii.eqb c p && startsWith s' prefix'
  end.

(** The two handlers the request listener installed by [main] chooses
    between. *)
Inductive RequestListener :=
| to_app
| to_mcpHandler.

(** [if (!req.url?.startsWith('/mcp')) app(req, res) else mcpHandler(req, res)];
    [req.url] may be [undefined], and then [?.] yields [undefined], which
    is falsy. *)
Definition on_request (req_url : option string) : RequestListener :=
  if negb (match req_url with
           | Some u => startsWith u "/mcp"
           | None => false
           end)
  then to_app
  else to_mcpHandler.

(** ** [StaticAuthProvider] with its objects held by reference

    [constructor(private headers)] keeps the reference it is given, and
    [getAuthHeaders] returns [{ ...this.headers }], a new object with the
    same entries.  Header records live in a heap of objects here; an
    object that is not in the heap does not exist, and reading through
    such a reference is [None]. *)

Module StaticAuthProviderRef.

Record t := new { headers_ref : positive }.

(** [{ ...this.headers }]: a new object, allocated at an unused address. *)
Definition getAuthHeaders (this : t) (heap : gmap positive (gmap string string))
    : option (positive * gmap positive (gmap string string)) :=
  entries ← heap !! headers_ref this;
  let copy := fresh (dom heap) in
  Some (copy, <[copy := entries]> heap).

(** [obj[name] = value] on the object at [ref]. *)
Definition set_property (ref : positive) (name value : string)
    (heap : gmap positive (gmap string string))
    : gmap positive (gmap string string) :=
  match heap !! ref with
  | Some entries => <[ref := <[name := value]> entries]> heap
  | None => heap
  end.

End StaticAuthProviderRef.

(** ** Vocabulary for the statements *)

(** Every character of [s] satisfies [p]. *)
Fixpoint string_forallb (p : ascii -> bool) (s : string) : bool :=
  match s with
  | EmptyString => true
  | String c s' => p c && string_forallb p s'
  end.

(** The number of occurrences of [c] in [s]. *)
Fixpoint count_ascii (c : ascii) (s : string) : nat :=
  match s with
  | EmptyString => O
  | String d s' => ((if Ascii.eqb d c then 1 else 0) + count_ascii c s')%nat
  end.

(** The characters [encodeURIComponent] can produce. *)
Definition uri_component_char (c : ascii) : bool :=
  Encoding.uri_unreserved c || Ascii.eqb c "%".

(** The characters the form-urlencoded serializer can produce. *)
Definition urlencoded_char (c : ascii) : bool :=
  Encoding.is_alphanumeric c || Encoding.mem_ascii c "*-._+%".

(** The text of a field as the token call carries it:
    [data[key] || ''], converted to a string. *)
Definition forwarded_text (v : option Js.Value) : string :=
  if Js.truthy v then Js.toString v else "".

(** The fields of the token call, in the order of its body. *)
Definition token_fields : list string :=
  ["grant_type"; "code"; "redirect_uri"; "client_id"; "client_secret"].

(** [doc[key]] on a JSON object. *)
Definition Json_get (key : string) (doc : Js.Json) : option Js.Json :=
  match doc with
  | Js.JObject fields =>
      snd <$> List.find (fun kv => String.eqb (fst kv) key) fields
  | _ => None
  end.

(** [doc[key1][key2]...] along a path of keys. *)
Fixpoint Json_path (path : list string) (doc : Js.Json) : option Js.Json :=
  match path with
  | [] => Some doc
  | key :: rest =>
      match Json_get key doc with
      | Some inner => Json_path rest inner
      | None => None
      end
  end.

(** Unfolds the operations of [Async] in a goal. *)
Ltac unfold_async :=
  unfold try_catch, new_URL, runtime, throw;
  unfold mbind, Async_bind, mret, Async_ret.

(** Drops the equal leading characters of an equation between strings. *)
Ltac strip_heads H :=
  repeat match type of H with
         | String ?c _ = String ?c _ => injection H as H
         end.

(** * Properties *)

(** ** The monad *)

Lemma bind_rejected {A B} (m : Async A) (k : A -> Async B) rt log e log' :
  m rt log = (Rejected e, log') -> (m ≫= k) rt log = (Rejected e, log').
Proof. intros H. unfold mbind, Async_bind. now rewrite H. Qed.

Lemma bind_fulfilled {A B} (m : Async A) (k : A -> Async B) rt log a log' :
  m rt log = (Fulfilled a, log') -> (m ≫= k) rt log = k a rt log'.
Proof. intros H. unfold mbind, Async_bind. now rewrite H. Qed.

(** ** [auth-provider.ts] *)

Lemma getAuthHeaders_no_token this rt log :
  Js.truthy_string (requestContext_store rt ≫= bearerToken) = false ->
  BearerTokenAuthProvider.getAuthHeaders this rt log
  = (Rejected (Error BearerTokenAuthProvider.no_token_message), log).
Proof.
  intros H. unfold BearerTokenAuthProvider.getAuthHeaders, getStore, runtime.
  unfold mbind, Async_bind, mret, Async_ret in *. now rewrite H.
Qed.

(** C2. With the context-bound provider, when there is no active request
    context, or the context's [bearerToken] is absent or empty,
    [getAuthHeaders()] is rejected with the provider's "No bearer token
    found" [Error] (the specification's CredentialUnavailable); it has
    issued no downstream call, and nothing sequenced after it, such as the
    downstream call the headers were asked for, is run. *)
Theorem C2_bearer_getAuthHeaders_fails_fast
    (this : BearerTokenAuthProvider.t) (rt : Runtime) (log : list HttpRequest) :
  requestContext_store rt = None
  \/ (exists context, requestContext_store rt = Some context
        /\ (bearerToken context = None \/ bearerToken context = Some "")) ->
  getAuthHeaders this rt log
  = (Rejected (Error BearerTokenAuthProvider.no_token_message), log)
  /\ forall (B : Type) (call : gmap string string -> Async B),
       (getAuthHeaders this ≫= call) rt log
       = (Rejected (Error BearerTokenAuthProvider.no_token_message), log).
Proof.
  intros H.
  assert (Hfalse : Js.truthy_string (requestContext_store rt ≫= bearerToken) = false).
  { destruct H as [-> | (context & -> & [Htok | Htok])]; simpl;
      try rewrite Htok; reflexivity. }
  split.
  - now apply getAuthHeaders_no_token.
  - intros B call. apply bind_rejected. now apply getAuthHeaders_no_token.
Qed.

Lemma C2_bearer_getAuthHeaders_fails_fast_witness :
  getAuthHeaders BearerTokenAuthProvider.new
    (plain_runtime (Some {| bearerToken := Some "" |}) None) []
  = (Rejected (Error BearerTokenAuthProvider.no_token_message), []).
Proof.
  apply (C2_bearer_getAuthHeaders_fails_fast BearerTokenAuthProvider.new
           (plain_runtime (Some {| bearerToken := Some "" |}) None) []).
  right. exists {| bearerToken := Some "" |}.
  split; [reflexivity | right; reflexivity].
Defined.

(** C5. [handleAuthError] is fulfilled with [false] for every error, by
    the static provider and by the context-bound provider alike, and
    issues no downstream call. *)
Theorem C5_handleAuthError_false :
  (forall (p : StaticAuthProvider.t) (error : AxiosError) rt log,
      handleAuthError p error rt log = (Fulfilled false, log))
  /\ (forall (p : BearerTokenAuthProvider.t) (error : AxiosError) rt log,
        handleAuthError p error rt log = (Fulfilled false, log)).
Proof. split; intros p error rt log; reflexivity. Qed.

(** C8. [isAuthError(error)] is [true] exactly when [error] carries a
    response whose status is 401 or 403. *)
Theorem C8_isAuthError_iff (error : AxiosError) :
  isAuthError error = true
  <-> exists r, response error = Some r /\ (status r = 401 \/ status r = 403).
Proof.
  unfold isAuthError. destruct (response error) as [r|].
  - rewrite Bool.orb_true_iff, !Z.eqb_eq. split.
    + intros H. now exists r.
    + intros (r' & [= <-] & H). exact H.
  - split; [discriminate | intros (r & [=] & _)].
Qed.

(** C10. In a request context whose [bearerToken] is a non-empty string
    [t], [getAuthHeaders()] of the context-bound provider is fulfilled with
    the one-entry record [{ Authorization: "Bearer " + t }], and has issued
    no downstream call. *)
Theorem C10_bearer_getAuthHeaders_value
    (this : BearerTokenAuthProvider.t) (rt : Runtime) (log : list HttpRequest)
    (context : RequestContext) (t : string) :
  requestContext_store rt = Some context ->
  bearerToken context = Some t ->
  t <> "" ->
  getAuthHeaders this rt log
  = (Fulfilled ({[ "Authorization" := "Bearer " +:+ t ]} : gmap string string), log).
Proof.
  intros Hstore Htok Hne. simpl.
  unfold BearerTokenAuthProvider.getAuthHeaders, getStore, runtime.
  unfold mbind, Async_bind, mret, Async_ret.
  rewrite Hstore. simpl. rewrite Htok. simpl.
  apply String.eqb_neq in Hne. now rewrite Hne.
Qed.

Lemma C10_bearer_getAuthHeaders_value_witness :
  getAuthHeaders BearerTokenAuthProvider.new
    (plain_runtime (Some {| bearerToken := Some "abc123" |}) None) []
  = (Fulfilled ({[ "Authorization" := "Bearer abc123" ]} : gmap string string), []).
Proof.
  apply (C10_bearer_getAuthHeaders_value BearerTokenAuthProvider.new
           (plain_runtime (Some {| bearerToken := Some "abc123" |}) None) []
           {| bearerToken := Some "abc123" |} "abc123");
    [reflexivity | reflexivity | discriminate].
Defined.

(** ** [URLSearchParams] *)

Lemma getAll_filter_out name rest :
  URLSearchParams_getAll name
    (List.filter (fun kv : string * string => negb (String.eqb (fst kv) name)) rest) = [].
Proof.
  unfold URLSearchParams_getAll.
  induction rest as [|[k v] rest IH]; simpl; [reflexivity |].
  destruct (String.eqb k name) eqn:E; simpl; [exact IH |].
  now rewrite E.
Qed.

Lemma getAll_filter_other name other rest :
  other <> name ->
  URLSearchParams_getAll other
    (List.filter (fun kv : string * string => negb (String.eqb (fst kv) name)) rest)
  = URLSearchParams_getAll other rest.
Proof.
  intros Hne. unfold URLSearchParams_getAll.
  induction rest as [|[k v] rest IH]; simpl; [reflexivity |].
  destruct (String.eqb k name) eqn:E; simpl.
  - apply String.eqb_eq in E. subst k.
    apply not_eq_sym, String.eqb_neq in Hne. now rewrite Hne.
  - destruct (String.eqb k other); simpl; now rewrite IH.
Qed.

(** After [set(name, value)], [getAll(name)] is [[value]]. *)
Lemma getAll_set_same name value params :
  URLSearchParams_getAll name (URLSearchParams_set name value params) = [value].
Proof.
  induction params as [|[k v] rest IH]; simpl.
  - unfold URLSearchParams_getAll. simpl. now rewrite String.eqb_refl.
  - destruct (String.eqb k name) eqn:E.
    + unfold URLSearchParams_getAll at 1. simpl. rewrite String.eqb_refl. simpl.
      f_equal. apply getAll_filter_out.
    + unfold URLSearchParams_getAll in *. simpl. now rewrite E.
Qed.

(** [set(name, value)] leaves the values of every other name alone. *)
Lemma getAll_set_other name other value params :
  other <> name ->
  URLSearchParams_getAll other (URLSearchParams_set name value params)
  = URLSearchParams_getAll other params.
Proof.
  intros Hne. pose proof Hne as Hne'. apply not_eq_sym, String.eqb_neq in Hne'.
  induction params as [|[k v] rest IH]; simpl.
  - unfold URLSearchParams_getAll. simpl. now rewrite Hne'.
  - destruct (String.eqb k name) eqn:E.
    + apply String.eqb_eq in E. subst k.
      unfold URLSearchParams_getAll at 1 2. simpl. rewrite Hne'. simpl.
      now apply getAll_filter_other.
    + unfold URLSearchParams_getAll in *. simpl.
      destruct (String.eqb k other); simpl; now rewrite IH.
Qed.

(** ** [GET /oauth/authorize] *)

(** The guard of the handler: a falsy required parameter ends the request
    with the 400 answer, before anything else is done. *)
Lemma oauth_authorize_guard req rt log :
  negb (Js.truthy (Express.query req !! "client_id"))
  || negb (Js.truthy (Express.query req !! "redirect_uri"))
  || negb (Js.truthy (Express.query req !! "state")) = true ->
  oauth_authorize req rt log = (Fulfilled invalid_request_authorize, log).
Proof.
  intros H. unfold oauth_authorize. rewrite H. reflexivity.
Qed.

(** Past the guard, with a downstream endpoint that parses as a URL, the
    handler redirects to that URL after four [searchParams.set]. *)
Lemma oauth_authorize_redirect req rt log u :
  Js.truthy (Express.query req !! "client_id") = true ->
  Js.truthy (Express.query req !! "redirect_uri") = true ->
  Js.truthy (Express.query req !! "state") = true ->
  URL_parse rt (BULLET_TRAIN_BASE_URL rt +:+ "/oauth/authorize") = Some u ->
  oauth_authorize req rt log
  = (Fulfilled
       (Express.redirect
          (URL_toString
             (URL_set "response_type"
                (if Js.truthy (Express.query req !! "response_type")
                 then Js.toString (Express.query req !! "response_type")
                 else "code")
                (URL_set "state" (Js.toString (Express.query req !! "state"))
                   (URL_set "redirect_uri"
                      (Js.toString (Express.query req !! "redirect_uri"))
                      (URL_set "client_id"
                         (Js.toString (Express.query req !! "client_id")) u)))))),
     log).
Proof.
  intros Hc Hr Hs Hu. unfold oauth_authorize. rewrite Hc, Hr, Hs. simpl.
  unfold_async. now rewrite Hu.
Qed.

(** C6. An authorize request whose query lacks [client_id], [redirect_uri]
    or [state] is answered 400 with [error: "invalid_request"]; the answer
    is no redirect, and no downstream call has been issued. *)
Theorem C6_authorize_missing_parameter
    (req : Express.Request) (rt : Runtime) (log : list HttpRequest) :
  Express.query req !! "client_id" = None
  \/ Express.query req !! "redirect_uri" = None
  \/ Express.query req !! "state" = None ->
  oauth_authorize req rt log
  = (Fulfilled
       (Express.json 400
          (Js.JObject
             [("error", Js.JString "invalid_request");
              ("error_description",
               Js.JString "Missing required parameters: client_id, redirect_uri, or state")])),
     log).
Proof.
  intros H. apply oauth_authorize_guard.
  destruct H as [-> | [-> | ->]]; simpl;
    rewrite ?Bool.orb_true_r; reflexivity.
Qed.

Lemma C6_authorize_missing_parameter_witness :
  oauth_authorize
    (query_request [("client_id", Js.Str "id"); ("redirect_uri", Js.Str "https://x/cb")])
    (plain_runtime None None) []
  = (Fulfilled invalid_request_authorize, []).
Proof.
  apply (C6_authorize_missing_parameter
           (query_request [("client_id", Js.Str "id");
                           ("redirect_uri", Js.Str "https://x/cb")])
           (plain_runtime None None) []).
  right. right. vm_compute. reflexivity.
Defined.

(** C3, as stated, fails twice.  A query that contains all three
    parameters, [state] being the empty string, is answered 400 and not
    redirected; and a query with a further parameter ([scope]) is
    redirected to a URL that does not carry it. *)
Lemma C3_authorize_counterexample :
  (let req := query_request [("client_id", Js.Str "id");
                             ("redirect_uri", Js.Str "https://x/cb");
                             ("state", Js.Str "")] in
   is_Some (Express.query req !! "client_id")
   /\ is_Some (Express.query req !! "redirect_uri")
   /\ is_Some (Express.query req !! "state")
   /\ forall location log',
        oauth_authorize req (plain_runtime None None) []
        <> (Fulfilled (Express.redirect location), log'))
  /\ (let req := query_request [("client_id", Js.Str "id");
                                ("redirect_uri", Js.Str "https://x/cb");
                                ("state", Js.Str "s1");
                                ("scope", Js.Str "read")] in
      Express.query req !! "scope" = Some (Js.Str "read")
      /\ oauth_authorize req (plain_runtime None None) []
         = (Fulfilled
              (Express.redirect
                 "http://localhost:3000/oauth/authorize?client_id=id&redirect_uri=https%3A%2F%2Fx%2Fcb&state=s1&response_type=code"),
            [])).
Proof.
  split.
  - cbv zeta. repeat split; try (vm_compute; eexists; reflexivity).
    intros location log'.
    rewrite oauth_authorize_guard by (vm_compute; reflexivity).
    discriminate.
  - cbv zeta. split; vm_compute; reflexivity.
Qed.

(** C3, amended.  When [client_id], [redirect_uri] and [state] are present
    and truthy (for strings: not empty) and the downstream authorization
    endpoint parses as a URL, the relay answers with a redirect to that
    endpoint and issues no downstream call.  In the target's query,
    [client_id], [redirect_uri] and [state] occur once each with the
    inbound value; [response_type] occurs once, with the inbound value
    when that is truthy and with "code" otherwise; every other name has the
    values it has in the configured endpoint, whatever the inbound query
    holds. *)
Theorem C3_authorize_redirects
    (req : Express.Request) (rt : Runtime) (log : list HttpRequest) (u : URL) :
  Js.truthy (Express.query req !! "client_id") = true ->
  Js.truthy (Express.query req !! "redirect_uri") = true ->
  Js.truthy (Express.query req !! "state") = true ->
  URL_parse rt (BULLET_TRAIN_BASE_URL rt +:+ "/oauth/authorize") = Some u ->
  exists target : URL,
    oauth_authorize req rt log
    = (Fulfilled (Express.redirect (URL_toString target)), log)
    /\ before_query target = before_query u
    /\ hash target = hash u
    /\ URLSearchParams_getAll "client_id" (searchParams target)
       = [Js.toString (Express.query req !! "client_id")]
    /\ URLSearchParams_getAll "redirect_uri" (searchParams target)
       = [Js.toString (Express.query req !! "redirect_uri")]
    /\ URLSearchParams_getAll "state" (searchParams target)
       = [Js.toString (Express.query req !! "state")]
    /\ URLSearchParams_getAll "response_type" (searchParams target)
       = [match Express.query req !! "response_type" with
          | None => "code"
          | Some v => if Js.truthy (Some v) then Js.toString (Some v) else "code"
          end]
    /\ forall name,
         name <> "client_id" -> name <> "redirect_uri" ->
         name <> "state" -> name <> "response_type" ->
         URLSearchParams_getAll name (searchParams target)
         = URLSearchParams_getAll name (searchParams u).
Proof.
  intros Hc Hr Hs Hu.
  eexists. split; [apply oauth_authorize_redirect; eassumption |].
  simpl. repeat split.
  - rewrite !getAll_set_other by discriminate. apply getAll_set_same.
  - rewrite !getAll_set_other by discriminate. apply getAll_set_same.
  - rewrite !getAll_set_other by discriminate. apply getAll_set_same.
  - rewrite getAll_set_same.
    now destruct (Express.query req !! "response_type").
  - intros name H1 H2 H3 H4. now rewrite !getAll_set_other.
Qed.

Lemma C3_authorize_redirects_witness :
  exists target : URL,
    oauth_authorize
      (query_request [("client_id", Js.Str "id");
                      ("redirect_uri", Js.Str "https://x/cb");
                      ("state", Js.Str "s1")])
      (plain_runtime None None) []
    = (Fulfilled (Express.redirect (URL_toString target)), [])
    /\ URLSearchParams_getAll "response_type" (searchParams target) = ["code"].
Proof.
  destruct (C3_authorize_redirects
              (query_request [("client_id", Js.Str "id");
                              ("redirect_uri", Js.Str "https://x/cb");
                              ("state", Js.Str "s1")])
              (plain_runtime None None) []
              {| before_query := "http://localhost:3000/oauth/authorize";
                 searchParams := []; hash := "" |}
              eq_refl eq_refl eq_refl eq_refl)
    as (target & Hrun & _ & _ & _ & _ & _ & Hrt & _).
  exists target. split; [exact Hrun | exact Hrt].
Defined.

(** ** [POST /oauth/token] *)

(** A field seen through [Express.body] is a field of a parsed body. *)
Lemma body_lookup req key v :
  Express.body req !! key = Some v
  <-> exists fields : gmap string Express.Field,
        Express.raw_body req = Some fields
        /\ fields !! key = Some (Express.value v).
Proof.
  unfold Express.body. destruct (Express.raw_body req) as [fields|].
  - rewrite lookup_omap. split.
    + intros H. exists fields. split; [reflexivity |].
      destruct (fields !! key) as [[w | |]|]; simpl in H; congruence.
    + intros (fields' & [= <-] & ->). reflexivity.
  - rewrite lookup_empty. split; [discriminate | intros (fields & [=] & _)].
Qed.

(** A field that has a text is the one [Express.body] shows. *)
Lemma printable_body req (fields : gmap string Express.Field) key :
  Express.raw_body req = Some fields ->
  Express.converts (fields !! key) = true ->
  Express.printable (fields !! key) = Fulfilled (Express.body req !! key).
Proof.
  intros Hraw. unfold Express.body, Express.converts.
  rewrite Hraw, lookup_omap.
  destruct (fields !! key) as [[w | |]|]; simpl; congruence.
Qed.

(** Without a parsed body the destructuring throws, and the handler
    answers with its 500. *)
Lemma oauth_token_undefined_body req rt log :
  Express.raw_body req = None ->
  oauth_token req rt log = (Fulfilled server_error_token, log).
Proof.
  intros Hraw. unfold oauth_token. rewrite Hraw. reflexivity.
Qed.

Lemma oauth_token_guard_client req rt log (fields : gmap string Express.Field) :
  Express.raw_body req = Some fields ->
  negb (Express.truthy (fields !! "client_id"))
  || negb (Express.truthy (fields !! "client_secret")) = true ->
  oauth_token req rt log
  = (Fulfilled
       (Express.json 400
          (error_body "invalid_request" "Missing client_id or client_secret")),
     log).
Proof.
  intros Hraw H. unfold oauth_token. rewrite Hraw. unfold_async.
  rewrite H. reflexivity.
Qed.

Lemma oauth_token_guard_code req rt log (fields : gmap string Express.Field) :
  Express.raw_body req = Some fields ->
  Express.truthy (fields !! "client_id") = true ->
  Express.truthy (fields !! "client_secret") = true ->
  Express.strict_eq_string (fields !! "grant_type") "authorization_code" = true ->
  Express.truthy (fields !! "code") = false ->
  oauth_token req rt log
  = (Fulfilled
       (Express.json 400
          (error_body "invalid_request" "Missing authorization code")),
     log).
Proof.
  intros Hraw Hi Hs Hg Hc. unfold oauth_token. rewrite Hraw. unfold_async.
  rewrite Hi, Hs, Hg, Hc. reflexivity.
Qed.

(** Either guard gives a 400 [invalid_request] and leaves the log alone. *)
Lemma oauth_token_guards req rt log (fields : gmap string Express.Field) :
  Express.raw_body req = Some fields ->
  negb (Express.truthy (fields !! "client_id"))
  || negb (Express.truthy (fields !! "client_secret"))
  || Express.strict_eq_string (fields !! "grant_type") "authorization_code"
     && negb (Express.truthy (fields !! "code")) = true ->
  exists description,
    oauth_token req rt log
    = (Fulfilled
         (Express.json 400
            (Js.JObject [("error", Js.JString "invalid_request");
                         ("error_description", Js.JString description)])),
       log).
Proof.
  intros Hraw H.
  destruct (negb (Express.truthy (fields !! "client_id"))
            || negb (Express.truthy (fields !! "client_secret"))) eqn:E.
  - eexists. now apply (oauth_token_guard_client req rt log fields).
  - simpl in H. apply andb_prop in H as [Hg Hc].
    apply Bool.orb_false_elim in E as [Ei Es].
    apply Bool.negb_false_iff in Ei, Es. apply Bool.negb_true_iff in Hc.
    eexists. now apply (oauth_token_guard_code req rt log fields).
Qed.

(** Past both guards, a field without text makes [transformRequest]
    throw before anything is sent. *)
Lemma oauth_token_throws req rt log (fields : gmap string Express.Field) e :
  Express.raw_body req = Some fields ->
  Express.truthy (fields !! "client_id") = true ->
  Express.truthy (fields !! "client_secret") = true ->
  Express.strict_eq_string (fields !! "grant_type") "authorization_code"
  && negb (Express.truthy (fields !! "code")) = false ->
  printable_data
    [("grant_type", fields !! "grant_type"); ("code", fields !! "code");
     ("redirect_uri", fields !! "redirect_uri");
     ("client_id", fields !! "client_id");
     ("client_secret", fields !! "client_secret")] = Rejected e ->
  oauth_token req rt log = (Fulfilled server_error_token, log).
Proof.
  intros Hraw Hi Hs Hg Hp. unfold oauth_token. rewrite Hraw. unfold_async.
  rewrite Hi, Hs, Hg. cbn [negb orb].
  unfold transformRequest_fields. rewrite Hp. unfold throw.
  cbv beta iota zeta.
  destruct e as [m | m | m | [[r|]]]; try reflexivity.
  (* [printable_data] never yields an axios error *)
  exfalso. revert Hp. cbn [printable_data].
  repeat match goal with
         | |- context [Express.printable ?f] =>
             destruct f as [[? | |]|]; cbn [Express.printable]
         end; discriminate.
Qed.

(** Past both guards, with a text for every field, the handler asks axios
    for one POST and answers from how that ends. *)
Lemma oauth_token_posts req rt log (fields : gmap string Express.Field) values :
  Express.raw_body req = Some fields ->
  Express.truthy (fields !! "client_id") = true ->
  Express.truthy (fields !! "client_secret") = true ->
  Express.strict_eq_string (fields !! "grant_type") "authorization_code"
  && negb (Express.truthy (fields !! "code")) = false ->
  printable_data
    [("grant_type", fields !! "grant_type"); ("code", fields !! "code");
     ("redirect_uri", fields !! "redirect_uri");
     ("client_id", fields !! "client_id");
     ("client_secret", fields !! "client_secret")] = Fulfilled values ->
  oauth_token req rt log
  = let call :=
      {| method := "POST";
         url := BULLET_TRAIN_BASE_URL rt +:+ "/oauth/token";
         headers := {[ "Content-Type" := "application/x-www-form-urlencoded" ]};
         body := transformRequest values |} in
    match downstream rt call with
    | not_sent => (Fulfilled server_error_token, log)
    | sent followed (Some r) =>
        (Fulfilled
           (Express.json (if validateStatus (status r) then 200 else status r)
                         (data r)),
         (log ++ call :: followed)%list)
    | sent followed None =>
        (Fulfilled server_error_token, (log ++ call :: followed)%list)
    end.
Proof.
  intros Hraw Hi Hs Hg Hp. unfold oauth_token. rewrite Hraw. unfold_async.
  rewrite Hi, Hs, Hg. cbn [negb orb].
  unfold transformRequest_fields. rewrite Hp.
  unfold mret, Async_ret, axios_post. cbv beta iota zeta.
  destruct (downstream rt _) as [|followed [r|]];
    [reflexivity | | reflexivity].
  destruct (validateStatus (status r)); reflexivity.
Qed.

(** The relay proper, for the request of the round trip. *)
Lemma oauth_token_authorization_code rt log :
  oauth_token authorization_code_request rt log
  = match downstream rt (authorization_code_forwarded rt) with
    | not_sent => (Fulfilled server_error_token, log)
    | sent followed (Some r) =>
        (Fulfilled
           (Express.json (if validateStatus (status r) then 200 else status r)
                         (data r)),
         (log ++ authorization_code_forwarded rt :: followed)%list)
    | sent followed None =>
        (Fulfilled server_error_token,
         (log ++ authorization_code_forwarded rt :: followed)%list)
    end.
Proof.
  rewrite (oauth_token_posts authorization_code_request rt log
             (Express.value
                <$> list_to_map
                      [("grant_type", Js.Str "authorization_code");
                       ("code", Js.Str "abc"); ("redirect_uri", Js.Str "https://x");
                       ("client_id", Js.Str "id"); ("client_secret", Js.Str "sec")])
             [("grant_type", Some (Js.Str "authorization_code"));
              ("code", Some (Js.Str "abc"));
              ("redirect_uri", Some (Js.Str "https://x"));
              ("client_id", Some (Js.Str "id"));
              ("client_secret", Some (Js.Str "sec"))]);
    reflexivity.
Qed.

(** C7.  The claim fails on a request whose body no parser has filled in
    ([req.body] is [undefined], as Express 5 leaves it): [client_id] and
    [client_secret] are absent, yet the destructuring of [req.body] throws
    and the handler answers 500 [server_error] instead of the 400
    [invalid_request].  Nothing is sent downstream. *)
Theorem C7_token_undefined_body (rt : Runtime) (log : list HttpRequest) :
  Express.raw_body no_body_request = None
  /\ Express.body no_body_request !! "client_id" = None
  /\ Express.body no_body_request !! "client_secret" = None
  /\ oauth_token no_body_request rt log
     = (Fulfilled
          (Express.json 500
             (Js.JObject
                [("error", Js.JString "server_error");
                 ("error_description",
                  Js.JString "Internal server error during token exchange")])),
        log).
Proof.
  split; [reflexivity |]. split; [reflexivity |]. split; [reflexivity |].
  now apply oauth_token_undefined_body.
Qed.

(** C9. A required parameter that is present as the empty string is
    treated like a missing one: an authorize request with an empty
    [client_id], [redirect_uri] or [state], and a token request with an
    empty [client_id] or [client_secret], or with [grant_type]
    "authorization_code" and an empty [code], are answered 400 with
    [error: "invalid_request"], without a downstream call. *)
Theorem C9_empty_parameter_rejected
    (req : Express.Request) (rt : Runtime) (log : list HttpRequest) :
  (Express.query req !! "client_id" = Some (Js.Str "")
   \/ Express.query req !! "redirect_uri" = Some (Js.Str "")
   \/ Express.query req !! "state" = Some (Js.Str "") ->
   exists description,
     oauth_authorize req rt log
     = (Fulfilled
          (Express.json 400
             (Js.JObject [("error", Js.JString "invalid_request");
                          ("error_description", Js.JString description)])),
        log))
  /\ (Express.body req !! "client_id" = Some (Js.Str "")
      \/ Express.body req !! "client_secret" = Some (Js.Str "")
      \/ (Express.body req !! "grant_type" = Some (Js.Str "authorization_code")
          /\ Express.body req !! "code" = Some (Js.Str "")) ->
      exists description,
        oauth_token req rt log
        = (Fulfilled
             (Express.json 400
                (Js.JObject [("error", Js.JString "invalid_request");
                             ("error_description", Js.JString description)])),
           log)).
Proof.
  split; intros H.
  - eexists. apply oauth_authorize_guard.
    destruct H as [-> | [-> | ->]]; simpl;
      rewrite ?Bool.orb_true_r; reflexivity.
  - destruct H as [H | [H | [Hg Hc]]].
    + apply body_lookup in H as (fields & Hraw & Hf).
      apply (oauth_token_guards req rt log fields Hraw).
      rewrite Hf. reflexivity.
    + apply body_lookup in H as (fields & Hraw & Hf).
      apply (oauth_token_guards req rt log fields Hraw).
      rewrite Hf. simpl. rewrite ?Bool.orb_true_r. reflexivity.
    + apply body_lookup in Hg as (fields & Hraw & Hfg).
      apply body_lookup in Hc as (fields' & Hraw' & Hfc).
      rewrite Hraw in Hraw'. injection Hraw' as <-.
      apply (oauth_token_guards req rt log fields Hraw).
      rewrite Hfg, Hfc. simpl. rewrite ?Bool.orb_true_r. reflexivity.
Qed.

Lemma C9_empty_parameter_rejected_witness :
  (exists description,
     oauth_authorize
       (query_request [("client_id", Js.Str "id");
                       ("redirect_uri", Js.Str "https://x/cb");
                       ("state", Js.Str "")])
       (plain_runtime None None) []
     = (Fulfilled
          (Express.json 400
             (Js.JObject [("error", Js.JString "invalid_request");
                          ("error_description", Js.JString description)])),
        []))
  /\ (exists description,
        oauth_token
          (body_request [("grant_type", Js.Str "authorization_code");
                         ("code", Js.Str ""); ("client_id", Js.Str "id");
                         ("client_secret", Js.Str "sec")])
          (plain_runtime None None) []
        = (Fulfilled
             (Express.json 400
                (Js.JObject [("error", Js.JString "invalid_request");
                             ("error_description", Js.JString description)])),
           [])).
Proof.
  split.
  - apply (proj1 (C9_empty_parameter_rejected
                    (query_request [("client_id", Js.Str "id");
                                    ("redirect_uri", Js.Str "https://x/cb");
                                    ("state", Js.Str "")])
                    (plain_runtime None None) [])).
    right. right. vm_compute. reflexivity.
  - apply (proj2 (C9_empty_parameter_rejected
                    (body_request [("grant_type", Js.Str "authorization_code");
                                   ("code", Js.Str ""); ("client_id", Js.Str "id");
                                   ("client_secret", Js.Str "sec")])
                    (plain_runtime None None) [])).
    right. right. split; vm_compute; reflexivity.
Defined.

(** C4, as stated, fails on the status: a downstream answer 201, which
    axios hands over as a fulfilled response, reaches the caller with its
    data and with status 200. *)
Lemma C4_token_relay_counterexample :
  downstream (plain_runtime None (Some created_token))
    (authorization_code_forwarded (plain_runtime None (Some created_token)))
  = sent [] (Some created_token)
  /\ status created_token = 201
  /\ oauth_token authorization_code_request
       (plain_runtime None (Some created_token)) []
     = (Fulfilled (Express.json 200 (data created_token)),
        [authorization_code_forwarded (plain_runtime None (Some created_token))])
  /\ oauth_token authorization_code_request
       (plain_runtime None (Some created_token)) []
     <> (Fulfilled (Express.json (status created_token) (data created_token)),
         [authorization_code_forwarded (plain_runtime None (Some created_token))]).
Proof.
  rewrite oauth_token_authorization_code.
  repeat split; discriminate.
Qed.

(** C4, amended.  For the body [{grant_type: "authorization_code", code:
    "abc", redirect_uri: "https://x", client_id: "id", client_secret:
    "sec"}] the relay hands axios one POST for the downstream token
    endpoint, form-urlencoded, whose body holds the five fields.  When
    axios sends it and ends on a response [r], after the requests
    [followed] of whatever redirects it followed, the relay returns the
    data axios parsed from [r], with the status of [r] when that is
    outside 200..299 (a 400 with [{error: "invalid_grant"}] comes back as
    it is) and with status 200 when it is inside; the requests that went
    out are the relay's own, first, and then [followed]. *)
Theorem C4_token_relay
    (rt : Runtime) (log : list HttpRequest)
    (followed : list HttpRequest) (r : AxiosResponse) :
  downstream rt
    {| method := "POST";
       url := BULLET_TRAIN_BASE_URL rt +:+ "/oauth/token";
       headers := {[ "Content-Type" := "application/x-www-form-urlencoded" ]};
       body := "grant_type=authorization_code&code=abc&redirect_uri=https%3A%2F%2Fx&client_id=id&client_secret=sec" |}
  = sent followed (Some r) ->
  oauth_token authorization_code_request rt log
  = (Fulfilled
       (Express.json
          (if (200 <=? status r) && (status r <? 300) then 200 else status r)
          (data r)),
     (log ++ {| method := "POST";
                url := BULLET_TRAIN_BASE_URL rt +:+ "/oauth/token";
                headers := {[ "Content-Type" := "application/x-www-form-urlencoded" ]};
                body := "grant_type=authorization_code&code=abc&redirect_uri=https%3A%2F%2Fx&client_id=id&client_secret=sec" |}
          :: followed)%list).
Proof.
  intros H. rewrite oauth_token_authorization_code.
  unfold authorization_code_forwarded. rewrite H. reflexivity.
Qed.

Lemma C4_token_relay_witness :
  oauth_token authorization_code_request
    (plain_runtime None (Some invalid_grant)) []
  = (Fulfilled
       (Express.json 400 (Js.JObject [("error", Js.JString "invalid_grant")])),
     [authorization_code_forwarded (plain_runtime None (Some invalid_grant))]).
Proof.
  apply (C4_token_relay (plain_runtime None (Some invalid_grant)) [] []
           invalid_grant eq_refl).
Defined.

(** * Further properties *)

(** ** [BearerTokenAuthProvider] *)

Lemma getAuthHeaders_token this rt log context t :
  requestContext_store rt = Some context ->
  bearerToken context = Some t ->
  t <> "" ->
  BearerTokenAuthProvider.getAuthHeaders this rt log
  = (Fulfilled ({[ "Authorization" := "Bearer " +:+ t ]} : gmap string string), log).
Proof.
  intros Hstore Htok Hne.
  unfold BearerTokenAuthProvider.getAuthHeaders, getStore, runtime.
  unfold mbind, Async_bind, mret, Async_ret.
  rewrite Hstore. simpl. rewrite Htok. simpl.
  apply String.eqb_neq in Hne. now rewrite Hne.
Qed.

Lemma truthy_string_cases (v : option string) :
  (Js.truthy_string v = true /\ exists t, v = Some t /\ t <> "")
  \/ (Js.truthy_string v = false /\ (v = None \/ v = Some "")).
Proof.
  destruct v as [t|]; simpl; [| right; auto].
  destruct (String.eqb t "") eqn:E; simpl.
  - apply String.eqb_eq in E. subst. right; auto.
  - apply String.eqb_neq in E. left. split; [reflexivity | now exists t].
Qed.

(** X1.  Two request contexts with non-empty tokens get the same headers from
    [getAuthHeaders()] only if they hold the same token: the header
    determines the token, so distinct tokens never share a header. *)
Theorem bearer_headers_determine_token
    (this : BearerTokenAuthProvider.t) (rt1 rt2 : Runtime)
    (log1 log2 : list HttpRequest) (c1 c2 : RequestContext) (t1 t2 : string) :
  requestContext_store rt1 = Some c1 -> bearerToken c1 = Some t1 -> t1 <> "" ->
  requestContext_store rt2 = Some c2 -> bearerToken c2 = Some t2 -> t2 <> "" ->
  (fst (getAuthHeaders this rt1 log1) = fst (getAuthHeaders this rt2 log2)
   <-> t1 = t2).
Proof.
  intros Hs1 Hb1 Hn1 Hs2 Hb2 Hn2. simpl.
  rewrite (getAuthHeaders_token this rt1 log1 c1 t1 Hs1 Hb1 Hn1).
  rewrite (getAuthHeaders_token this rt2 log2 c2 t2 Hs2 Hb2 Hn2).
  cbn [fst]. split.
  - intros H.
    apply (f_equal (fun o : Outcome (gmap string string) =>
                      match o with
                      | Fulfilled m => m !! "Authorization"
                      | Rejected _ => None
                      end)) in H.
    rewrite !lookup_singleton_eq in H.
    injection H as H. exact H.
  - now intros ->.
Qed.

Lemma bearer_headers_determine_token_witness :
  fst (getAuthHeaders BearerTokenAuthProvider.new
         (plain_runtime (Some {| bearerToken := Some "alice" |}) None) [])
  = fst (getAuthHeaders BearerTokenAuthProvider.new
           (plain_runtime (Some {| bearerToken := Some "bob" |}) None) [])
  <-> "alice" = "bob".
Proof.
  apply (bearer_headers_determine_token BearerTokenAuthProvider.new
           (plain_runtime (Some {| bearerToken := Some "alice" |}) None)
           (plain_runtime (Some {| bearerToken := Some "bob" |}) None)
           [] [] {| bearerToken := Some "alice" |} {| bearerToken := Some "bob" |}
           "alice" "bob");
    try reflexivity; discriminate.
Defined.

(** X2.  [getAuthHeaders()] of the context-bound provider is fulfilled exactly
    when the current context holds a non-empty token; fulfilled or
    rejected, it issues no downstream call, and what it settles to is
    decided by the context store alone. *)
Theorem bearer_getAuthHeaders_fulfilled_iff
    (this : BearerTokenAuthProvider.t) (rt : Runtime) (log : list HttpRequest) :
  ((exists h, fst (getAuthHeaders this rt log) = Fulfilled h)
   <-> exists context t,
         requestContext_store rt = Some context
         /\ bearerToken context = Some t /\ t <> "")
  /\ snd (getAuthHeaders this rt log) = log
  /\ forall rt' log',
       requestContext_store rt' = requestContext_store rt ->
       fst (getAuthHeaders this rt' log') = fst (getAuthHeaders this rt log).
Proof.
  simpl.
  destruct (truthy_string_cases (requestContext_store rt ≫= bearerToken))
    as [[Ht (t & Hv & Hne)] | [Hf Hv]].
  - destruct (requestContext_store rt) as [context|] eqn:Hs; [| discriminate].
    simpl in Hv.
    rewrite (getAuthHeaders_token this rt log context t Hs Hv Hne).
    repeat split.
    + intros _. now exists context, t.
    + intros _. eexists. reflexivity.
    + intros rt' log' Hs'.
      now rewrite (getAuthHeaders_token this rt' log' context t Hs' Hv Hne).
  - rewrite (getAuthHeaders_no_token this rt log Hf).
    repeat split.
    + intros (h & [=]).
    + intros (context & t & Hs & Hb & Hne). rewrite Hs in Hv. simpl in Hv.
      rewrite Hb in Hv. destruct Hv as [[=] | [= ->]]. exfalso. now apply Hne.
    + intros rt' log' Hs'.
      rewrite (getAuthHeaders_no_token this rt' log'); [reflexivity |].
      now rewrite Hs'.
Qed.

Lemma bearer_getAuthHeaders_fulfilled_iff_witness :
  fst (getAuthHeaders BearerTokenAuthProvider.new
         {| process_env := {[ "PUBLIC_URL" := "https://relay" ]};
            requestContext_store := Some {| bearerToken := Some "alice" |};
            URL_parse := fun _ => None;
            downstream := fun _ => sent [] (Some invalid_grant) |} [])
  = fst (getAuthHeaders BearerTokenAuthProvider.new
           (plain_runtime (Some {| bearerToken := Some "alice" |}) None) []).
Proof.
  apply (proj2 (proj2 (bearer_getAuthHeaders_fulfilled_iff
                         BearerTokenAuthProvider.new
                         (plain_runtime (Some {| bearerToken := Some "alice" |}) None)
                         []))).
  reflexivity.
Defined.

(** ** [StaticAuthProvider], by reference *)

Lemma fresh_not_allocated (heap : gmap positive (gmap string string)) :
  heap !! fresh (dom heap) = None.
Proof. apply not_elem_of_dom, is_fresh. Qed.

(** X3.  The object [getAuthHeaders()] returns is a new one with the entries of
    [this.headers]: whatever a caller writes into it afterwards, the
    provider's own object is untouched and the next [getAuthHeaders()]
    returns the original entries again. *)
Theorem static_getAuthHeaders_returns_copy
    (this : StaticAuthProviderRef.t) (heap : gmap positive (gmap string string))
    (entries : gmap string string) :
  heap !! StaticAuthProviderRef.headers_ref this = Some entries ->
  exists copy heap',
    StaticAuthProviderRef.getAuthHeaders this heap = Some (copy, heap')
    /\ copy <> StaticAuthProviderRef.headers_ref this
    /\ heap' !! copy = Some entries
    /\ forall name value,
         StaticAuthProviderRef.set_property copy name value heap'
           !! StaticAuthProviderRef.headers_ref this = Some entries
         /\ exists copy2 heap2,
              StaticAuthProviderRef.getAuthHeaders this
                (StaticAuthProviderRef.set_property copy name value heap')
              = Some (copy2, heap2)
              /\ heap2 !! copy2 = Some entries.
Proof.
  intros Hthis. unfold StaticAuthProviderRef.getAuthHeaders at 1.
  rewrite Hthis. simpl.
  set (copy := fresh (dom heap)).
  assert (Hcopy : heap !! copy = None) by apply fresh_not_allocated.
  assert (Hne : copy <> StaticAuthProviderRef.headers_ref this)
    by (intros E; rewrite E in Hcopy; congruence).
  exists copy, (<[copy := entries]> heap).
  split; [reflexivity |]. split; [exact Hne |].
  split; [apply lookup_insert_eq |].
  intros name value.
  assert (Hkept : StaticAuthProviderRef.set_property copy name value
                    (<[copy := entries]> heap)
                    !! StaticAuthProviderRef.headers_ref this = Some entries).
  { unfold StaticAuthProviderRef.set_property. rewrite lookup_insert_eq.
    rewrite !lookup_insert_ne by exact Hne. exact Hthis. }
  split; [exact Hkept |].
  unfold StaticAuthProviderRef.getAuthHeaders. rewrite Hkept. simpl.
  eexists _, _. split; [reflexivity |]. apply lookup_insert_eq.
Qed.

Lemma static_getAuthHeaders_returns_copy_witness :
  exists copy heap',
    StaticAuthProviderRef.getAuthHeaders (StaticAuthProviderRef.new 1)
      {[ 1%positive := {[ "X-API-Key" := "k" ]} ]}
    = Some (copy, heap')
    /\ copy <> 1%positive.
Proof.
  destruct (static_getAuthHeaders_returns_copy (StaticAuthProviderRef.new 1)
              {[ 1%positive := {[ "X-API-Key" := "k" ]} ]}
              {[ "X-API-Key" := "k" ]})
    as (copy & heap' & Hrun & Hne & _); [reflexivity |].
  exists copy, heap'. split; [exact Hrun | exact Hne].
Defined.

(** X4.  The constructor keeps the reference it was given and does not copy:
    a header written afterwards into the object passed to the constructor
    shows in what [getAuthHeaders()] returns. *)
Theorem static_constructor_keeps_reference
    (ref : positive) (heap : gmap positive (gmap string string))
    (entries : gmap string string) (name value : string) :
  heap !! ref = Some entries ->
  exists copy heap',
    StaticAuthProviderRef.getAuthHeaders (StaticAuthProviderRef.new ref)
      (StaticAuthProviderRef.set_property ref name value heap)
    = Some (copy, heap')
    /\ heap' !! copy = Some (<[name := value]> entries).
Proof.
  intros Href. unfold StaticAuthProviderRef.getAuthHeaders,
    StaticAuthProviderRef.set_property.
  rewrite Href. simpl. rewrite lookup_insert_eq. simpl.
  eexists _, _. split; [reflexivity |]. apply lookup_insert_eq.
Qed.

Lemma static_constructor_keeps_reference_witness :
  exists copy heap',
    StaticAuthProviderRef.getAuthHeaders (StaticAuthProviderRef.new 1)
      (StaticAuthProviderRef.set_property 1 "X-Extra" "v"
         {[ 1%positive := {[ "X-API-Key" := "k" ]} ]})
    = Some (copy, heap')
    /\ heap' !! copy = Some (<["X-Extra" := "v"]> {[ "X-API-Key" := "k" ]}).
Proof.
  apply (static_constructor_keeps_reference 1
           {[ 1%positive := {[ "X-API-Key" := "k" ]} ]}
           {[ "X-API-Key" := "k" ]} "X-Extra" "v").
  reflexivity.
Defined.

(** ** Characters and counting *)

Lemma count_ascii_app c a b :
  count_ascii c (a +:+ b) = (count_ascii c a + count_ascii c b)%nat.
Proof.
  induction a as [|d a IH]; simpl; [reflexivity |]. rewrite IH. lia.
Qed.

Lemma string_forallb_app p a b :
  string_forallb p (a +:+ b) = string_forallb p a && string_forallb p b.
Proof.
  induction a as [|d a IH]; simpl; [reflexivity |].
  rewrite IH. now rewrite andb_assoc.
Qed.

(** A character outside the alphabet of a string does not occur in it. *)
Lemma count_ascii_outside p c s :
  p c = false -> string_forallb p s = true -> count_ascii c s = O.
Proof.
  intros Hc. induction s as [|d s IH]; simpl; [reflexivity |].
  intros [Hd Hs]%andb_prop. rewrite (IH Hs).
  destruct (Ascii.eqb d c) eqn:E; [| reflexivity].
  apply Ascii.eqb_eq in E. congruence.
Qed.

Lemma percent_encode_byte_uri c :
  string_forallb uri_component_char (Encoding.percent_encode_byte c) = true.
Proof. destruct c as [[] [] [] [] [] [] [] []]; reflexivity. Qed.

Lemma percent_encode_byte_urlencoded c :
  string_forallb urlencoded_char (Encoding.percent_encode_byte c) = true.
Proof. destruct c as [[] [] [] [] [] [] [] []]; reflexivity. Qed.

(** [encodeURIComponent] yields unreserved characters and [%] only. *)
Lemma encodeURIComponent_chars s :
  string_forallb uri_component_char (Encoding.encodeURIComponent s) = true.
Proof.
  induction s as [|c s IH]; simpl; [reflexivity |].
  rewrite string_forallb_app, IH, andb_true_r.
  destruct (Encoding.uri_unreserved c) eqn:E.
  - simpl. unfold uri_component_char. now rewrite E.
  - apply percent_encode_byte_uri.
Qed.

(** The form-urlencoded serializer yields letters, digits and
    [* - . _ + %] only. *)
Lemma urlencoded_serialize_bytes_chars s :
  string_forallb urlencoded_char (Encoding.urlencoded_serialize_bytes s) = true.
Proof.
  induction s as [|c s IH]; [reflexivity |].
  cbn [Encoding.urlencoded_serialize_bytes].
  rewrite string_forallb_app, IH, andb_true_r.
  destruct (Ascii.eqb c " "); [reflexivity |].
  destruct (Encoding.is_alphanumeric c || Encoding.mem_ascii c "*-._") eqn:E.
  - cbn [string_forallb]. rewrite andb_true_r. unfold urlencoded_char.
    destruct (Encoding.is_alphanumeric c); [reflexivity |]. simpl in *.
    destruct (Ascii.eqb c "*"), (Ascii.eqb c "-"), (Ascii.eqb c "."),
      (Ascii.eqb c "_"); simpl in *; try reflexivity; discriminate.
  - apply percent_encode_byte_urlencoded.
Qed.

Lemma urlencoded_count c s :
  urlencoded_char c = false ->
  count_ascii c (Encoding.urlencoded_serialize_bytes s) = O.
Proof.
  intros H. eapply count_ascii_outside; [exact H |].
  apply urlencoded_serialize_bytes_chars.
Qed.

Lemma encodeURIComponent_count c s :
  uri_component_char c = false ->
  count_ascii c (Encoding.encodeURIComponent s) = O.
Proof.
  intros H. eapply count_ascii_outside; [exact H |].
  apply encodeURIComponent_chars.
Qed.

(** ** [GET /oauth/authorize], further *)

(** X5.  The authorize handler always answers, and never calls downstream:
    whatever the query and the runtime, the promise is fulfilled, the log
    of downstream calls is unchanged, and the answer is the 400
    [invalid_request], the 500 [server_error], or a redirect. *)
Theorem oauth_authorize_always_answers
    (req : Express.Request) (rt : Runtime) (log : list HttpRequest) :
  exists r,
    oauth_authorize req rt log = (Fulfilled r, log)
    /\ (r = invalid_request_authorize
        \/ r = Express.json 500
                 (error_body "server_error"
                    "Internal server error during authorization")
        \/ exists location, r = Express.redirect location).
Proof.
  destruct (negb (Js.truthy (Express.query req !! "client_id"))
            || negb (Js.truthy (Express.query req !! "redirect_uri"))
            || negb (Js.truthy (Express.query req !! "state"))) eqn:G.
  - eexists. split; [now apply oauth_authorize_guard | now left].
  - unfold oauth_authorize. rewrite G. unfold_async.
    destruct (URL_parse rt _); eexists; (split; [reflexivity |]).
    + right. right. eexists. reflexivity.
    + right. now left.
Qed.

(** X6.  When the parameters are in order but the downstream authorization
    endpoint does not parse as a URL ([new URL] throws), the handler
    answers 500 with [error: "server_error"]. *)
Theorem oauth_authorize_invalid_endpoint
    (req : Express.Request) (rt : Runtime) (log : list HttpRequest) :
  Js.truthy (Express.query req !! "client_id") = true ->
  Js.truthy (Express.query req !! "redirect_uri") = true ->
  Js.truthy (Express.query req !! "state") = true ->
  URL_parse rt (BULLET_TRAIN_BASE_URL rt +:+ "/oauth/authorize") = None ->
  oauth_authorize req rt log
  = (Fulfilled
       (Express.json 500
          (Js.JObject
             [("error", Js.JString "server_error");
              ("error_description",
               Js.JString "Internal server error during authorization")])),
     log).
Proof.
  intros Hc Hr Hs Hu. unfold oauth_authorize. rewrite Hc, Hr, Hs. simpl.
  unfold_async. now rewrite Hu.
Qed.

Lemma oauth_authorize_invalid_endpoint_witness :
  oauth_authorize
    (query_request [("client_id", Js.Str "id");
                    ("redirect_uri", Js.Str "https://x/cb");
                    ("state", Js.Str "s1")])
    {| process_env := {[ "BULLET_TRAIN_BASE_URL" := "not a url" ]};
       requestContext_store := None;
       URL_parse := fun _ => None;
       downstream := fun _ => not_sent |} []
  = (Fulfilled
       (Express.json 500
          (Js.JObject
             [("error", Js.JString "server_error");
              ("error_description",
               Js.JString "Internal server error during authorization")])),
     []).
Proof.
  apply (oauth_authorize_invalid_endpoint
           (query_request [("client_id", Js.Str "id");
                           ("redirect_uri", Js.Str "https://x/cb");
                           ("state", Js.Str "s1")])
           {| process_env := {[ "BULLET_TRAIN_BASE_URL" := "not a url" ]};
              requestContext_store := None;
              URL_parse := fun _ => None;
              downstream := fun _ => not_sent |} []);
    reflexivity.
Defined.

(** X7.  With a downstream endpoint that has no query of its own, the redirect
    goes to [endpoint?client_id=..&redirect_uri=..&state=..&response_type=..]
    followed by the endpoint's fragment, each value form-urlencoded.  The
    query holds exactly three [&] and four [=] and neither [#] nor [?]:
    no inbound value can add a parameter or a fragment to the downstream
    URL. *)
Theorem oauth_authorize_location
    (req : Express.Request) (rt : Runtime) (log : list HttpRequest) (u : URL) :
  Js.truthy (Express.query req !! "client_id") = true ->
  Js.truthy (Express.query req !! "redirect_uri") = true ->
  Js.truthy (Express.query req !! "state") = true ->
  URL_parse rt (BULLET_TRAIN_BASE_URL rt +:+ "/oauth/authorize") = Some u ->
  searchParams u = [] ->
  exists q,
    oauth_authorize req rt log
    = (Fulfilled (Express.redirect (before_query u +:+ "?" +:+ q +:+ hash u)), log)
    /\ q = "client_id="
           +:+ Encoding.urlencoded_serialize_bytes
                 (Js.toString (Express.query req !! "client_id"))
           +:+ "&redirect_uri="
           +:+ Encoding.urlencoded_serialize_bytes
                 (Js.toString (Express.query req !! "redirect_uri"))
           +:+ "&state="
           +:+ Encoding.urlencoded_serialize_bytes
                 (Js.toString (Express.query req !! "state"))
           +:+ "&response_type="
           +:+ Encoding.urlencoded_serialize_bytes
                 (if Js.truthy (Express.query req !! "response_type")
                  then Js.toString (Express.query req !! "response_type")
                  else "code")
    /\ count_ascii "&" q = 3%nat
    /\ count_ascii "=" q = 4%nat
    /\ count_ascii "#" q = 0%nat
    /\ count_ascii "?" q = 0%nat.
Proof.
  intros Hc Hr Hs Hu Hq.
  rewrite (oauth_authorize_redirect req rt log u Hc Hr Hs Hu).
  eexists. split; [| split; [reflexivity |]].
  - unfold URL_toString, URL_set. cbn [before_query searchParams hash].
    rewrite Hq. cbn -[Encoding.urlencoded_serialize_bytes].
    repeat f_equal.
  - repeat split; simpl;
      rewrite ?count_ascii_app; simpl;
      rewrite ?count_ascii_app; simpl;
      rewrite !urlencoded_count by reflexivity; reflexivity.
Qed.

Lemma oauth_authorize_location_witness :
  exists q,
    oauth_authorize
      (query_request [("client_id", Js.Str "id");
                      ("redirect_uri", Js.Str "https://x/cb?a=1&b=2#frag");
                      ("state", Js.Str "s 1")])
      (plain_runtime None None) []
    = (Fulfilled
         (Express.redirect
            ("http://localhost:3000/oauth/authorize" +:+ "?" +:+ q +:+ "")), [])
    /\ count_ascii "&" q = 3%nat.
Proof.
  destruct (oauth_authorize_location
              (query_request [("client_id", Js.Str "id");
                              ("redirect_uri", Js.Str "https://x/cb?a=1&b=2#frag");
                              ("state", Js.Str "s 1")])
              (plain_runtime None None) []
              {| before_query := "http://localhost:3000/oauth/authorize";
                 searchParams := []; hash := "" |})
    as (q & Hrun & _ & Hamp & _); try reflexivity.
  exists q. split; [exact Hrun | exact Hamp].
Defined.

(** ** [POST /oauth/token], further *)

Lemma printable_data_rejected (data : list (string * option Express.Field)) :
  (exists entry, In entry data /\ Express.converts (snd entry) = false) ->
  exists e, printable_data data = Rejected e.
Proof.
  induction data as [|[key f] data IH]; intros (entry & Hin & Hconv).
  - destruct Hin.
  - cbn [printable_data]. unfold Express.converts in *.
    destruct (Express.printable f) as [v|e] eqn:Ef; [| now exists e].
    destruct Hin as [<- | Hin]; [simpl in Hconv; rewrite Ef in Hconv; discriminate |].
    destruct IH as (e & ->); [now exists entry | now exists e].
Qed.


(** Past both guards, with a text for every field, the request handed to
    axios is [token_call]. *)
Lemma oauth_token_calls req rt log (fields : gmap string Express.Field) :
  Express.raw_body req = Some fields ->
  Express.truthy (fields !! "client_id") = true ->
  Express.truthy (fields !! "client_secret") = true ->
  Express.strict_eq_string (fields !! "grant_type") "authorization_code"
  && negb (Express.truthy (fields !! "code")) = false ->
  (forall key, In key token_fields -> Express.converts (fields !! key) = true) ->
  oauth_token req rt log
  = match downstream rt (token_call req rt) with
    | not_sent => (Fulfilled server_error_token, log)
    | sent followed (Some r) =>
        (Fulfilled
           (Express.json (if validateStatus (status r) then 200 else status r)
                         (data r)),
         (log ++ token_call req rt :: followed)%list)
    | sent followed None =>
        (Fulfilled server_error_token,
         (log ++ token_call req rt :: followed)%list)
    end.
Proof.
  intros Hraw Hi Hs Hg Hconv.
  apply (oauth_token_posts req rt log fields
           [("grant_type", Express.body req !! "grant_type");
            ("code", Express.body req !! "code");
            ("redirect_uri", Express.body req !! "redirect_uri");
            ("client_id", Express.body req !! "client_id");
            ("client_secret", Express.body req !! "client_secret")]
           Hraw Hi Hs Hg).
  cbn [printable_data].
  rewrite !(printable_body req fields _ Hraw)
    by (apply Hconv; simpl; auto 6).
  reflexivity.
Qed.

(** X8.  Past both guards, when every one of the five fields has a text,
    the handler hands axios exactly one request, [token_call]: a POST to
    the downstream token endpoint with the form-urlencoded body of the
    five fields.  If axios sends nothing, the answer is the 500
    [server_error] and nothing went out.  Otherwise what went out is
    [token_call] followed by the requests of the redirects axios chose to
    follow, and the answer comes from the final response: status 200 with
    its data when its status is in 200..299, its own status and data
    otherwise, and the 500 [server_error] when there is none. *)
Theorem oauth_token_relays
    (req : Express.Request) (rt : Runtime) (log : list HttpRequest)
    (fields : gmap string Express.Field) :
  Express.raw_body req = Some fields ->
  Express.truthy (fields !! "client_id") = true ->
  Express.truthy (fields !! "client_secret") = true ->
  (Express.strict_eq_string (fields !! "grant_type") "authorization_code" = true ->
   Express.truthy (fields !! "code") = true) ->
  (forall key, In key token_fields -> Express.converts (fields !! key) = true) ->
  oauth_token req rt log
  = match downstream rt (token_call req rt) with
    | not_sent =>
        (Fulfilled
           (Express.json 500
              (Js.JObject
                 [("error", Js.JString "server_error");
                  ("error_description",
                   Js.JString "Internal server error during token exchange")])),
         log)
    | sent followed final =>
        (Fulfilled
           match final with
           | Some r =>
               Express.json
                 (if (200 <=? status r) && (status r <? 300) then 200
                  else status r)
                 (data r)
           | None =>
               Express.json 500
                 (Js.JObject
                    [("error", Js.JString "server_error");
                     ("error_description",
                      Js.JString "Internal server error during token exchange")])
           end,
         (log ++ token_call req rt :: followed)%list)
    end.
Proof.
  intros Hraw Hi Hs Hc Hconv.
  rewrite (oauth_token_calls req rt log fields Hraw Hi Hs); [| | exact Hconv].
  - destruct (downstream rt (token_call req rt)) as [|followed [r|]]; reflexivity.
  - destruct (Express.strict_eq_string _ _); [| reflexivity].
    now rewrite Hc.
Qed.

Lemma oauth_token_relays_witness :
  oauth_token
    (body_request [("grant_type", Js.Str "client_credentials");
                   ("client_id", Js.Str "id"); ("client_secret", Js.Str "sec")])
    {| process_env := ∅;
       requestContext_store := None;
       URL_parse := fun _ => None;
       downstream := fun call =>
         sent [{| method := "GET"; url := "http://localhost:3000/moved";
                  headers := ∅; body := "" |}]
              (Some created_token) |} []
  = (Fulfilled (Express.json 200 (data created_token)),
     [{| method := "POST";
         url := "http://localhost:3000/oauth/token";
         headers := {[ "Content-Type" := "application/x-www-form-urlencoded" ]};
         body := "grant_type=client_credentials&code=&redirect_uri=&client_id=id&client_secret=sec" |};
      {| method := "GET"; url := "http://localhost:3000/moved";
         headers := ∅; body := "" |}]).
Proof.
  rewrite (oauth_token_relays
           (body_request [("grant_type", Js.Str "client_credentials");
                          ("client_id", Js.Str "id");
                          ("client_secret", Js.Str "sec")])
           {| process_env := ∅;
              requestContext_store := None;
              URL_parse := fun _ => None;
              downstream := fun call =>
                sent [{| method := "GET"; url := "http://localhost:3000/moved";
                         headers := ∅; body := "" |}]
                     (Some created_token) |} []
           (Express.value
              <$> list_to_map [("grant_type", Js.Str "client_credentials");
                               ("client_id", Js.Str "id");
                               ("client_secret", Js.Str "sec")])).
  - reflexivity.
  - reflexivity.
  - reflexivity.
  - reflexivity.
  - discriminate.
  - intros key [<- | [<- | [<- | [<- | [<- | []]]]]]; reflexivity.
Defined.


(** X16.  With a parsed body, a token request that lacks [client_id] or
    [client_secret], or whose [grant_type] is "authorization_code" while
    [code] is lacking, is answered 400 with [error: "invalid_request"],
    and nothing is sent downstream. *)
Theorem oauth_token_missing_parameter
    (req : Express.Request) (rt : Runtime) (log : list HttpRequest)
    (fields : gmap string Express.Field) :
  Express.raw_body req = Some fields ->
  fields !! "client_id" = None
  \/ fields !! "client_secret" = None
  \/ (fields !! "grant_type" = Some (Express.value (Js.Str "authorization_code"))
      /\ fields !! "code" = None) ->
  exists description,
    oauth_token req rt log
    = (Fulfilled
         (Express.json 400
            (Js.JObject [("error", Js.JString "invalid_request");
                         ("error_description", Js.JString description)])),
       log).
Proof.
  intros Hraw H. apply (oauth_token_guards req rt log fields Hraw).
  destruct H as [-> | [-> | [-> ->]]]; simpl;
    rewrite ?Bool.orb_true_r; reflexivity.
Qed.

Lemma oauth_token_missing_parameter_witness :
  exists description,
    oauth_token
      (body_request [("grant_type", Js.Str "authorization_code");
                     ("client_id", Js.Str "id"); ("client_secret", Js.Str "sec")])
      (plain_runtime None None) []
    = (Fulfilled
         (Express.json 400
            (Js.JObject [("error", Js.JString "invalid_request");
                         ("error_description", Js.JString description)])),
       []).
Proof.
  apply (oauth_token_missing_parameter
           (body_request [("grant_type", Js.Str "authorization_code");
                          ("client_id", Js.Str "id");
                          ("client_secret", Js.Str "sec")])
           (plain_runtime None None) []
           (Express.value
              <$> list_to_map [("grant_type", Js.Str "authorization_code");
                               ("client_id", Js.Str "id");
                               ("client_secret", Js.Str "sec")])).
  - reflexivity.
  - right. right. split; reflexivity.
Defined.

(** X17.  Past both guards, a field among the five that has no text (a
    string with a lone surrogate, an object without a callable
    [toString]) makes [transformRequest] throw: the handler answers 500
    with [error: "server_error"] and nothing is sent downstream. *)
Theorem oauth_token_field_without_text
    (req : Express.Request) (rt : Runtime) (log : list HttpRequest)
    (fields : gmap string Express.Field) (key : string) :
  Express.raw_body req = Some fields ->
  Express.truthy (fields !! "client_id") = true ->
  Express.truthy (fields !! "client_secret") = true ->
  (Express.strict_eq_string (fields !! "grant_type") "authorization_code" = true ->
   Express.truthy (fields !! "code") = true) ->
  In key token_fields ->
  Express.converts (fields !! key) = false ->
  oauth_token req rt log
  = (Fulfilled
       (Express.json 500
          (Js.JObject
             [("error", Js.JString "server_error");
              ("error_description",
               Js.JString "Internal server error during token exchange")])),
     log).
Proof.
  intros Hraw Hi Hs Hc Hkey Hconv.
  destruct (printable_data_rejected
              [("grant_type", fields !! "grant_type"); ("code", fields !! "code");
               ("redirect_uri", fields !! "redirect_uri");
               ("client_id", fields !! "client_id");
               ("client_secret", fields !! "client_secret")]) as (e & He).
  { exists (key, fields !! key). split; [| exact Hconv].
    destruct Hkey as [<- | [<- | [<- | [<- | [<- | []]]]]]; simpl; auto 6. }
  apply (oauth_token_throws req rt log fields e Hraw Hi Hs); [| exact He].
  destruct (Express.strict_eq_string _ _); [| reflexivity].
  now rewrite Hc.
Qed.

Lemma oauth_token_field_without_text_witness :
  oauth_token
    {| Express.query := ∅;
       Express.raw_body :=
         Some (list_to_map
                 [("grant_type", Express.value (Js.Str "authorization_code"));
                  ("code", Express.lone_surrogate);
                  ("client_id", Express.value (Js.Str "id"));
                  ("client_secret", Express.value (Js.Str "sec"))]) |}
    (plain_runtime None (Some created_token)) []
  = (Fulfilled
       (Express.json 500
          (Js.JObject
             [("error", Js.JString "server_error");
              ("error_description",
               Js.JString "Internal server error during token exchange")])),
     []).
Proof.
  apply (oauth_token_field_without_text
           {| Express.query := ∅;
              Express.raw_body :=
                Some (list_to_map
                        [("grant_type", Express.value (Js.Str "authorization_code"));
                         ("code", Express.lone_surrogate);
                         ("client_id", Express.value (Js.Str "id"));
                         ("client_secret", Express.value (Js.Str "sec"))]) |}
           (plain_runtime None (Some created_token)) []
           (list_to_map
              [("grant_type", Express.value (Js.Str "authorization_code"));
               ("code", Express.lone_surrogate);
               ("client_id", Express.value (Js.Str "id"));
               ("client_secret", Express.value (Js.Str "sec"))])
           "code").
  - reflexivity.
  - reflexivity.
  - reflexivity.
  - intros _. reflexivity.
  - simpl. auto.
  - reflexivity.
Defined.

(** ** The body of the token call *)

Lemma append_cons x a b : String x a +:+ b = String x (a +:+ b).
Proof. reflexivity. Qed.

Lemma append_empty_l a : "" +:+ a = a.
Proof. reflexivity. Qed.

Lemma append_assoc a b c : (a +:+ b) +:+ c = a +:+ (b +:+ c).
Proof.
  induction a as [|x a IH]; [reflexivity |].
  now rewrite !append_cons, IH.
Qed.

Lemma append_empty_r a : a +:+ "" = a.
Proof.
  induction a as [|x a IH]; [reflexivity |].
  now rewrite append_cons, IH.
Qed.

Lemma transformRequest_cons entry data :
  transformRequest (entry :: data)
  = Encoding.encodeURIComponent (fst entry) +:+ "="
    +:+ Encoding.encodeURIComponent (forwarded_text (snd entry))
    +:+ match data with
        | [] => ""
        | _ => "&" +:+ transformRequest data
        end.
Proof.
  unfold transformRequest, forwarded_text. cbn [map Encoding.join].
  destruct data as [|entry' data]; cbn [map].
  - now rewrite append_empty_r.
  - now rewrite !append_assoc.
Qed.

(** X10.  In the form body [transformRequest] builds, [&] occurs only between
    two fields and [=] only between a name and its value, whatever the
    names and values are: a value cannot pass for a further field. *)
Theorem transformRequest_separators (data : list (string * option Js.Value)) :
  count_ascii "&" (transformRequest data) = pred (length data)
  /\ count_ascii "=" (transformRequest data) = length data.
Proof.
  induction data as [|entry data [IHamp IHeq]]; [split; reflexivity |].
  rewrite transformRequest_cons. rewrite !count_ascii_app.
  rewrite !encodeURIComponent_count by reflexivity.
  destruct data as [|entry' data]; [split; reflexivity |].
  rewrite !count_ascii_app, IHamp, IHeq. split; reflexivity.
Qed.

(** *** [encodeURIComponent] loses nothing *)

Lemma hex_digit_inj a b :
  (a < 16)%N -> (b < 16)%N ->
  Encoding.hex_digit a = Encoding.hex_digit b -> a = b.
Proof.
  intros Ha Hb H. unfold Encoding.hex_digit in H.
  apply (f_equal N_of_ascii) in H.
  destruct (a <? 10)%N eqn:Ea, (b <? 10)%N eqn:Eb;
    rewrite !N_ascii_embedding in H by lia;
    rewrite ?N.ltb_lt, ?N.ltb_ge in *; lia.
Qed.

Lemma percent_encode_byte_inj c d :
  Encoding.percent_encode_byte c = Encoding.percent_encode_byte d -> c = d.
Proof.
  unfold Encoding.percent_encode_byte. intros [= Hhi Hlo].
  pose proof (N_ascii_bounded c) as Hc. pose proof (N_ascii_bounded d) as Hd.
  apply hex_digit_inj in Hhi;
    [| apply N.Div0.div_lt_upper_bound; lia
     | apply N.Div0.div_lt_upper_bound; lia].
  apply hex_digit_inj in Hlo; [| apply N.mod_lt; lia | apply N.mod_lt; lia].
  rewrite <- (ascii_N_embedding c), <- (ascii_N_embedding d). f_equal.
  rewrite (N.div_mod (N_of_ascii c) 16), (N.div_mod (N_of_ascii d) 16) by lia.
  now rewrite Hhi, Hlo.
Qed.

Lemma encodeURIComponent_inj s t :
  Encoding.encodeURIComponent s = Encoding.encodeURIComponent t -> s = t.
Proof.
  revert t. induction s as [|c s IH]; intros [|d t]; simpl; intros H.
  - reflexivity.
  - destruct (Encoding.uri_unreserved d); discriminate H.
  - destruct (Encoding.uri_unreserved c); discriminate H.
  - destruct (Encoding.uri_unreserved c) eqn:Ec,
             (Encoding.uri_unreserved d) eqn:Ed; simpl in H.
    + injection H as -> H. f_equal. now apply IH.
    + injection H as -> _. discriminate Ec.
    + injection H as <- _. discriminate Ed.
    + injection H as Hhi Hlo H.
      assert (c = d) as ->
        by (apply percent_encode_byte_inj;
            unfold Encoding.percent_encode_byte; now rewrite Hhi, Hlo).
      f_equal. now apply IH.
Qed.

(** Two strings without [&] followed by [&] and a rest: equal wholes have
    equal parts. *)
Lemma append_amp_split a a' r r' :
  count_ascii "&" a = O -> count_ascii "&" a' = O ->
  a +:+ String "&" r = a' +:+ String "&" r' -> a = a' /\ r = r'.
Proof.
  revert a'. induction a as [|c a IH]; intros [|c' a']; simpl; intros Ha Ha' H.
  - injection H as ->. now split.
  - injection H as <- _. discriminate Ha'.
  - injection H as -> _. discriminate Ha.
  - injection H as -> H.
    destruct (Ascii.eqb c' "&"); [discriminate Ha |].
    destruct (IH a' Ha Ha' H) as [-> ->]. now split.
Qed.

(** X11.  The body of the token call determines what was forwarded for each of
    the five fields: two requests with the same body were forwarded with
    the same text for [grant_type], [code], [redirect_uri], [client_id]
    and [client_secret]. *)
Theorem token_call_body_injective
    (req1 req2 : Express.Request) (rt1 rt2 : Runtime) :
  body (token_call req1 rt1) = body (token_call req2 rt2) ->
  forall field, In field token_fields ->
    forwarded_text (Express.body req1 !! field)
    = forwarded_text (Express.body req2 !! field).
Proof.
  unfold token_call. cbn [body]. rewrite !transformRequest_cons.
  cbn [fst snd].
  change (Encoding.encodeURIComponent "grant_type") with "grant_type".
  change (Encoding.encodeURIComponent "code") with "code".
  change (Encoding.encodeURIComponent "redirect_uri") with "redirect_uri".
  change (Encoding.encodeURIComponent "client_id") with "client_id".
  change (Encoding.encodeURIComponent "client_secret") with "client_secret".
  rewrite !append_empty_r.
  intros H. repeat rewrite ?append_cons, ?append_empty_l in H.
  strip_heads H.
  apply append_amp_split in H as [H1 H];
    [| now apply encodeURIComponent_count ..].
  strip_heads H.
  apply append_amp_split in H as [H2 H];
    [| now apply encodeURIComponent_count ..].
  strip_heads H.
  apply append_amp_split in H as [H3 H];
    [| now apply encodeURIComponent_count ..].
  strip_heads H.
  apply append_amp_split in H as [H4 H];
    [| now apply encodeURIComponent_count ..].
  strip_heads H.
  apply encodeURIComponent_inj in H1, H2, H3, H4, H.
  intros field [<- | [<- | [<- | [<- | [<- | []]]]]]; assumption.
Qed.

Lemma token_call_body_injective_witness :
  forwarded_text
    (Express.body
       (body_request [("grant_type", Js.Str "client_credentials");
                      ("client_id", Js.Str "id"); ("client_secret", Js.Str "sec")])
     !! "code")
  = forwarded_text
      (Express.body
         (body_request [("grant_type", Js.Str "client_credentials");
                        ("code", Js.Other false "0");
                        ("client_id", Js.Str "id"); ("client_secret", Js.Str "sec")])
       !! "code").
Proof.
  apply (token_call_body_injective
           (body_request [("grant_type", Js.Str "client_credentials");
                          ("client_id", Js.Str "id");
                          ("client_secret", Js.Str "sec")])
           (body_request [("grant_type", Js.Str "client_credentials");
                          ("code", Js.Other false "0");
                          ("client_id", Js.Str "id");
                          ("client_secret", Js.Str "sec")])
           (plain_runtime None None) (plain_runtime None None)).
  - vm_compute. reflexivity.
  - simpl. auto.
Defined.

Lemma encodeURIComponent_unreserved s :
  string_forallb Encoding.uri_unreserved s = true ->
  Encoding.encodeURIComponent s = s.
Proof.
  induction s as [|c s IH]; [reflexivity |].
  cbn [string_forallb Encoding.encodeURIComponent].
  intros [Hc Hs]%andb_prop. rewrite Hc, (IH Hs). reflexivity.
Qed.

(** X12.  A token request whose five fields are strings made of letters,
    digits and [- _ . ! ~ * ' ( )] is forwarded with these strings as
    they are: the body of the call is
    [grant_type=..&code=..&redirect_uri=..&client_id=..&client_secret=..]
    with the inbound texts in place. *)
Theorem token_call_body_plain
    (req : Express.Request) (rt : Runtime)
    (grant_type code redirect_uri client_id client_secret : string) :
  Express.body req !! "grant_type" = Some (Js.Str grant_type) ->
  Express.body req !! "code" = Some (Js.Str code) ->
  Express.body req !! "redirect_uri" = Some (Js.Str redirect_uri) ->
  Express.body req !! "client_id" = Some (Js.Str client_id) ->
  Express.body req !! "client_secret" = Some (Js.Str client_secret) ->
  string_forallb Encoding.uri_unreserved
    (grant_type +:+ code +:+ redirect_uri +:+ client_id +:+ client_secret)
  = true ->
  body (token_call req rt)
  = "grant_type=" +:+ grant_type +:+ "&code=" +:+ code
    +:+ "&redirect_uri=" +:+ redirect_uri +:+ "&client_id=" +:+ client_id
    +:+ "&client_secret=" +:+ client_secret.
Proof.
  unfold token_call. cbn [body].
  intros -> -> -> -> -> H.
  rewrite !string_forallb_app in H.
  apply andb_prop in H as [Hg H]. apply andb_prop in H as [Hc H].
  apply andb_prop in H as [Hr H]. apply andb_prop in H as [Hi Hs].
  rewrite !transformRequest_cons. cbn [fst snd].
  assert (Htext : forall s,
             string_forallb Encoding.uri_unreserved s = true ->
             Encoding.encodeURIComponent (forwarded_text (Some (Js.Str s))) = s).
  { intros s Hsafe. unfold forwarded_text. simpl.
    destruct (String.eqb s "") eqn:E; simpl.
    - apply String.eqb_eq in E. now subst.
    - now apply encodeURIComponent_unreserved. }
  rewrite !Htext by assumption.
  change (Encoding.encodeURIComponent "grant_type") with "grant_type".
  change (Encoding.encodeURIComponent "code") with "code".
  change (Encoding.encodeURIComponent "redirect_uri") with "redirect_uri".
  change (Encoding.encodeURIComponent "client_id") with "client_id".
  change (Encoding.encodeURIComponent "client_secret") with "client_secret".
  rewrite append_empty_r.
  repeat rewrite ?append_cons, ?append_empty_l. reflexivity.
Qed.

Lemma token_call_body_plain_witness :
  body (token_call
          (body_request [("grant_type", Js.Str "refresh_token");
                         ("code", Js.Str "c0de"); ("redirect_uri", Js.Str "app.example");
                         ("client_id", Js.Str "id-1"); ("client_secret", Js.Str "s3cret")])
          (plain_runtime None None))
  = "grant_type=refresh_token&code=c0de&redirect_uri=app.example&client_id=id-1&client_secret=s3cret".
Proof.
  apply (token_call_body_plain
           (body_request [("grant_type", Js.Str "refresh_token");
                          ("code", Js.Str "c0de");
                          ("redirect_uri", Js.Str "app.example");
                          ("client_id", Js.Str "id-1");
                          ("client_secret", Js.Str "s3cret")])
           (plain_runtime None None)
           "refresh_token" "c0de" "app.example" "id-1" "s3cret");
    reflexivity.
Defined.

(** ** The discovery documents and the index *)

(** X13.  The three documents the server publishes about itself agree: the
    protected-resource document names as resource, and as its only
    authorization server, the issuer of the authorization-server metadata,
    which is [PUBLIC_URL]; the index lists the authorize and token
    endpoints of the metadata, and the metadata's own address under the
    issuer.  Each handler answers 200 without a downstream call. *)
Theorem discovery_documents_agree
    (SERVER_PORT : string) (rt : Runtime) (log : list HttpRequest) :
  exists resource metadata index,
    oauth_protected_resource SERVER_PORT rt log
    = (Fulfilled (Express.json 200 resource), log)
    /\ oauth_authorization_server SERVER_PORT rt log
       = (Fulfilled (Express.json 200 metadata), log)
    /\ root SERVER_PORT rt log = (Fulfilled (Express.json 200 index), log)
    /\ Json_get "issuer" metadata
       = Some (Js.JString (PUBLIC_URL SERVER_PORT rt))
    /\ Json_get "resource" resource = Json_get "issuer" metadata
    /\ Json_get "authorization_servers" resource
       = Some (Js.JArray [Js.JString (PUBLIC_URL SERVER_PORT rt)])
    /\ Json_get "authorization_endpoint" metadata
       = Some (Js.JString (PUBLIC_URL SERVER_PORT rt +:+ "/oauth/authorize"))
    /\ Json_get "token_endpoint" metadata
       = Some (Js.JString (PUBLIC_URL SERVER_PORT rt +:+ "/oauth/token"))
    /\ Json_path ["endpoints"; "oauth"; "authorize"] index
       = Json_get "authorization_endpoint" metadata
    /\ Json_path ["endpoints"; "oauth"; "token"] index
       = Json_get "token_endpoint" metadata
    /\ Json_path ["endpoints"; "oauth"; "discovery"] index
       = Some (Js.JString (PUBLIC_URL SERVER_PORT rt
                           +:+ "/.well-known/oauth-authorization-server")).
Proof.
  eexists _, _, _. repeat split; reflexivity.
Qed.

(** X14.  When an accepted authorize request names no [response_type],
    the redirect is to the configured endpoint with [client_id],
    [redirect_uri] and [state] set from the request and [response_type]
    set to a value that the authorization-server metadata lists in
    [response_types_supported]; it is the only [response_type] on the
    redirect. *)
Theorem authorize_default_response_type_advertised
    (SERVER_PORT : string) (req : Express.Request) (rt : Runtime)
    (log : list HttpRequest) (u : URL) :
  Js.truthy (Express.query req !! "client_id") = true ->
  Js.truthy (Express.query req !! "redirect_uri") = true ->
  Js.truthy (Express.query req !! "state") = true ->
  Express.query req !! "response_type" = None ->
  URL_parse rt (BULLET_TRAIN_BASE_URL rt +:+ "/oauth/authorize") = Some u ->
  exists response_type metadata supported,
    oauth_authorize req rt log
    = (Fulfilled
         (Express.redirect
            (URL_toString
               (URL_set "response_type" response_type
                  (URL_set "state" (Js.toString (Express.query req !! "state"))
                     (URL_set "redirect_uri"
                        (Js.toString (Express.query req !! "redirect_uri"))
                        (URL_set "client_id"
                           (Js.toString (Express.query req !! "client_id"))
                           u)))))),
       log)
    /\ URLSearchParams_getAll "response_type"
         (searchParams
            (URL_set "response_type" response_type
               (URL_set "state" (Js.toString (Express.query req !! "state"))
                  (URL_set "redirect_uri"
                     (Js.toString (Express.query req !! "redirect_uri"))
                     (URL_set "client_id"
                        (Js.toString (Express.query req !! "client_id"))
                        u)))))
       = [response_type]
    /\ oauth_authorization_server SERVER_PORT rt log
       = (Fulfilled (Express.json 200 metadata), log)
    /\ Json_get "response_types_supported" metadata = Some (Js.JArray supported)
    /\ In (Js.JString response_type) supported.
Proof.
  intros Hc Hr Hs Hrt Hu.
  exists "code". eexists _, _.
  split.
  { rewrite (oauth_authorize_redirect req rt log u Hc Hr Hs Hu).
    now rewrite Hrt. }
  split; [apply getAll_set_same |].
  split; [reflexivity |]. split; [reflexivity |].
  now left.
Qed.

Lemma authorize_default_response_type_advertised_witness :
  exists response_type metadata supported,
    oauth_authorize
      (query_request [("client_id", Js.Str "id");
                      ("redirect_uri", Js.Str "https://x/cb");
                      ("state", Js.Str "s1")])
      (plain_runtime None None) []
    = (Fulfilled
         (Express.redirect
            (URL_toString
               (URL_set "response_type" response_type
                  (URL_set "state" "s1"
                     (URL_set "redirect_uri" "https://x/cb"
                        (URL_set "client_id" "id"
                           {| before_query := "http://localhost:3000/oauth/authorize";
                              searchParams := []; hash := "" |})))))),
       [])
    /\ oauth_authorization_server "3001" (plain_runtime None None) []
       = (Fulfilled (Express.json 200 metadata), [])
    /\ Json_get "response_types_supported" metadata = Some (Js.JArray supported)
    /\ In (Js.JString response_type) supported.
Proof.
  destruct (authorize_default_response_type_advertised "3001"
              (query_request [("client_id", Js.Str "id");
                              ("redirect_uri", Js.Str "https://x/cb");
                              ("state", Js.Str "s1")])
              (plain_runtime None None) []
              {| before_query := "http://localhost:3000/oauth/authorize";
                 searchParams := []; hash := "" |})
    as (response_type & metadata & supported & Hrun & _ & Hmeta & Hsup & Hin);
    try reflexivity.
  exists response_type, metadata, supported.
  split; [exact Hrun |]. split; [exact Hmeta |]. split; [exact Hsup | exact Hin].
Defined.

(** ** The request listener *)

Lemma startsWith_iff s prefix :
  startsWith s prefix = true <-> exists rest, s = prefix +:+ rest.
Proof.
  revert s. induction prefix as [|p prefix IH]; intros s.
  - split; [intros _; now exists s | intros _; now destruct s].
  - destruct s as [|c s]; cbn [startsWith].
    + split; [discriminate | intros (rest & [=])].
    + rewrite andb_true_iff, Ascii.eqb_eq, IH. split.
      * intros (-> & rest & ->). now exists rest.
      * intros (rest & [= -> ->]). split; [reflexivity | now exists rest].
Qed.

(** X15.  A request goes to the MCP handler exactly when its URL starts with
    the four characters [/mcp], whatever follows them; every other
    request, one without URL included, goes to the Express application.
    The paths of the discovery, OAuth and status routes, with anything
    appended, therefore reach the application. *)
Theorem on_request_mcp_iff (req_url : option string) :
  (on_request req_url = to_mcpHandler
   <-> exists rest, req_url = Some ("/mcp" +:+ rest))
  /\ (on_request req_url = to_app
      <-> ~ exists rest, req_url = Some ("/mcp" +:+ rest))
  /\ forall path rest,
       In path ["/.well-known/oauth-protected-resource";
                "/.well-known/oauth-authorization-server";
                "/oauth/authorize"; "/oauth/token"; "/status"] ->
       on_request (Some (path +:+ rest)) = to_app.
Proof.
  assert (Hmcp : on_request req_url = to_mcpHandler
                 <-> exists rest, req_url = Some ("/mcp" +:+ rest)).
  { unfold on_request. destruct req_url as [u|].
    - destruct (startsWith u "/mcp") eqn:E; simpl.
      + apply startsWith_iff in E as (rest & ->).
        split; [intros _; now exists rest | reflexivity].
      + split; [discriminate |]. intros (rest & [= ->]).
        assert (startsWith ("/mcp" +:+ rest) "/mcp" = true)
          by (apply startsWith_iff; now exists rest).
        congruence.
    - simpl. split; [discriminate | intros (rest & [=])]. }
  split; [exact Hmcp |]. split.
  - rewrite <- Hmcp. destruct (on_request req_url); split; congruence.
  - intros path rest [<- | [<- | [<- | [<- | [<- | []]]]]]; reflexivity.
Qed.
